(** * The HTML embed editing plugin (ckeditor5-html-embed)

    A shallow embedding of [htmlembedediting.ts] and [codemirror.ts].

    The plugin is event wiring around a host editor, so the embedding
    passes the host's mutable state explicitly: model element objects are
    references into a store (the callbacks of the plugin close over a model
    element and read or write it later), DOM attachment is a set of element
    handles, and the observable effects (logged warnings, console output,
    destroyed button views, model change blocks) are recorded in the state. *)

From Stdlib Require Import Ascii.
From stdpp Require Import base strings gmap list.

(** ** The host state *)

(** References to model element objects and to DOM elements. *)
Abbreviation ElementRef := positive.
Abbreviation DomRef := positive.

(** A model element: its name and its attributes.  The attribute values this
    plugin handles are strings ([as string] in the source) or [undefined]: a
    key can be present and hold [undefined], here [Some None], which is what
    [createElement] leaves for a key given the value [undefined]. *)
Record ModelElement := mkModelElement {
  name : string;
  attributes : gmap string (option string)
}.

(** Modelled from the spec: the host's model selection.  The host's selection
    code is not part of the plugin; the plugin only asks for the selected
    element and sets the selection onto an element.  [SelectionOn e] is the
    selection that [writer.setSelection( e, 'on' )] makes; every other
    selection (collapsed, inside text, none) selects no element. *)
Inductive Selection :=
| SelectionOn (e : ElementRef)
| SelectionAt (path : list nat)
| SelectionNone.

(** A button view as the render handler sees it: [element] is null before the
    view is rendered, otherwise a DOM element whose [isConnected] is read from
    the document at the time of the sweep. *)
Record ButtonView := mkButtonView {
  viewId : nat;
  element : option DomRef
}.

#[global] Instance ButtonView_eq_dec : EqDecision ButtonView.
Proof. solve_decision. Defined.

(** What [schema.register] receives. *)
Record SchemaItemDefinition := mkSchemaItem {
  inheritAllFrom : string;
  allowAttributes : list string
}.

(** What [registerRawContentMatcher] and the upcast [view] pattern receive. *)
Record MatcherPattern := mkMatcherPattern {
  pattern_name : string;
  pattern_classes : string
}.

(** The callbacks the plugin hands to the host, by name: the host state cannot
    hold closures over itself, so a registration stores which callback it is
    and [run_render_callback] and the converters below give their bodies. *)
Inductive RenderCallback := SweepWidgetButtons.
Inductive Priority := PriorityNormal | PriorityLowest.
Inductive Converter :=
| UpcastRawHtml
| DataDowncastRawHtml
| EditingDowncastRawHtml.

#[global] Instance Converter_eq_dec : EqDecision Converter.
Proof. solve_decision. Defined.

Record World := mkWorld {
  (* editor.model *)
  elements : gmap ElementRef ModelElement;
  selection : Selection;
  changeBlocks : nat;
  schema : list (string * SchemaItemDefinition);
  commands : list string;
  (* editor.editing.view, editor.data, editor.conversion *)
  connected : gset DomRef;
  renderListeners : list (RenderCallback * Priority);
  rawContentMatchers : list MatcherPattern;
  converters : list Converter;
  (* the plugin instance *)
  _widgetButtonViewReferences : list ButtonView;
  (* observable effects *)
  destroyed : list ButtonView;
  warnings : list string;
  console : list (string * string)
}.

Definition emptyWorld : World :=
  {| elements := ∅; selection := SelectionNone; changeBlocks := 0;
     schema := []; commands := [];
     connected := ∅; renderListeners := []; rawContentMatchers := [];
     converters := [];
     _widgetButtonViewReferences := [];
     destroyed := []; warnings := []; console := [] |}.

(** ** Actions on the host state *)

Definition Action (A : Type) : Type := World → A * World.

#[global] Instance Action_ret : MRet Action := λ A x w, (x, w).
#[global] Instance Action_bind : MBind Action :=
  λ A B f m w, let '(a, w') := m w in f a w'.

Definition exec {A} (m : Action A) (w : World) : World := (m w).2.
Definition eval {A} (m : Action A) (w : World) : A := (m w).1.

Definition gets {A} (f : World → A) : Action A := λ w, (f w, w).
Definition modify (f : World → World) : Action unit := λ w, (tt, f w).

Definition set_elements (f : gmap ElementRef ModelElement → gmap ElementRef ModelElement)
    (w : World) : World :=
  {| elements := f (elements w); selection := selection w;
     changeBlocks := changeBlocks w; schema := schema w; commands := commands w;
     connected := connected w; renderListeners := renderListeners w;
     rawContentMatchers := rawContentMatchers w; converters := converters w;
     _widgetButtonViewReferences := _widgetButtonViewReferences w;
     destroyed := destroyed w; warnings := warnings w; console := console w |}.

Definition set_selection (s : Selection) (w : World) : World :=
  {| elements := elements w; selection := s;
     changeBlocks := changeBlocks w; schema := schema w; commands := commands w;
     connected := connected w; renderListeners := renderListeners w;
     rawContentMatchers := rawContentMatchers w; converters := converters w;
     _widgetButtonViewReferences := _widgetButtonViewReferences w;
     destroyed := destroyed w; warnings := warnings w; console := console w |}.

Definition set_changeBlocks (f : nat → nat) (w : World) : World :=
  {| elements := elements w; selection := selection w;
     changeBlocks := f (changeBlocks w); schema := schema w; commands := commands w;
     connected := connected w; renderListeners := renderListeners w;
     rawContentMatchers := rawContentMatchers w; converters := converters w;
     _widgetButtonViewReferences := _widgetButtonViewReferences w;
     destroyed := destroyed w; warnings := warnings w; console := console w |}.

Definition set_schema (f : list (string * SchemaItemDefinition) → list (string * SchemaItemDefinition))
    (w : World) : World :=
  {| elements := elements w; selection := selection w;
     changeBlocks := changeBlocks w; schema := f (schema w); commands := commands w;
     connected := connected w; renderListeners := renderListeners w;
     rawContentMatchers := rawContentMatchers w; converters := converters w;
     _widgetButtonViewReferences := _widgetButtonViewReferences w;
     destroyed := destroyed w; warnings := warnings w; console := console w |}.

Definition set_commands (f : list string → list string) (w : World) : World :=
  {| elements := elements w; selection := selection w;
     changeBlocks := changeBlocks w; schema := schema w; commands := f (commands w);
     connected := connected w; renderListeners := renderListeners w;
     rawContentMatchers := rawContentMatchers w; converters := converters w;
     _widgetButtonViewReferences := _widgetButtonViewReferences w;
     destroyed := destroyed w; warnings := warnings w; console := console w |}.

Definition set_connected (c : gset DomRef) (w : World) : World :=
  {| elements := elements w; selection := selection w;
     changeBlocks := changeBlocks w; schema := schema w; commands := commands w;
     connected := c; renderListeners := renderListeners w;
     rawContentMatchers := rawContentMatchers w; converters := converters w;
     _widgetButtonViewReferences := _widgetButtonViewReferences w;
     destroyed := destroyed w; warnings := warnings w; console := console w |}.

Definition set_renderListeners (f : list (RenderCallback * Priority) → list (RenderCallback * Priority))
    (w : World) : World :=
  {| elements := elements w; selection := selection w;
     changeBlocks := changeBlocks w; schema := schema w; commands := commands w;
     connected := connected w; renderListeners := f (renderListeners w);
     rawContentMatchers := rawContentMatchers w; converters := converters w;
     _widgetButtonViewReferences := _widgetButtonViewReferences w;
     destroyed := destroyed w; warnings := warnings w; console := console w |}.

Definition set_rawContentMatchers (f : list MatcherPattern → list MatcherPattern)
    (w : World) : World :=
  {| elements := elements w; selection := selection w;
     changeBlocks := changeBlocks w; schema := schema w; commands := commands w;
     connected := connected w; renderListeners := renderListeners w;
     rawContentMatchers := f (rawContentMatchers w); converters := converters w;
     _widgetButtonViewReferences := _widgetButtonViewReferences w;
     destroyed := destroyed w; warnings := warnings w; console := console w |}.

Definition set_converters (f : list Converter → list Converter) (w : World) : World :=
  {| elements := elements w; selection := selection w;
     changeBlocks := changeBlocks w; schema := schema w; commands := commands w;
     connected := connected w; renderListeners := renderListeners w;
     rawContentMatchers := rawContentMatchers w; converters := f (converters w);
     _widgetButtonViewReferences := _widgetButtonViewReferences w;
     destroyed := destroyed w; warnings := warnings w; console := console w |}.

Definition set_references (f : list ButtonView → list ButtonView) (w : World) : World :=
  {| elements := elements w; selection := selection w;
     changeBlocks := changeBlocks w; schema := schema w; commands := commands w;
     connected := connected w; renderListeners := renderListeners w;
     rawContentMatchers := rawContentMatchers w; converters := converters w;
     _widgetButtonViewReferences := f (_widgetButtonViewReferences w);
     destroyed := destroyed w; warnings := warnings w; console := console w |}.

Definition set_destroyed (f : list ButtonView → list ButtonView) (w : World) : World :=
  {| elements := elements w; selection := selection w;
     changeBlocks := changeBlocks w; schema := schema w; commands := commands w;
     connected := connected w; renderListeners := renderListeners w;
     rawContentMatchers := rawContentMatchers w; converters := converters w;
     _widgetButtonViewReferences := _widgetButtonViewReferences w;
     destroyed := f (destroyed w); warnings := warnings w; console := console w |}.

Definition set_warnings (f : list string → list string) (w : World) : World :=
  {| elements := elements w; selection := selection w;
     changeBlocks := changeBlocks w; schema := schema w; commands := commands w;
     connected := connected w; renderListeners := renderListeners w;
     rawContentMatchers := rawContentMatchers w; converters := converters w;
     _widgetButtonViewReferences := _widgetButtonViewReferences w;
     destroyed := destroyed w; warnings := f (warnings w); console := console w |}.

Definition set_console (f : list (string * string) → list (string * string))
    (w : World) : World :=
  {| elements := elements w; selection := selection w;
     changeBlocks := changeBlocks w; schema := schema w; commands := commands w;
     connected := connected w; renderListeners := renderListeners w;
     rawContentMatchers := rawContentMatchers w; converters := converters w;
     _widgetButtonViewReferences := _widgetButtonViewReferences w;
     destroyed := destroyed w; warnings := warnings w; console := f (console w) |}.

(** ** The host API the plugin calls

    The host framework (its engine, ui, utils and widget packages) is not
    among the plugin's sources, which only import and call it. *)

(** Modelled from the spec: the host's [logWarning( id )]; the warning is
    logged, nothing is thrown. *)
Definition logWarning (errorName : string) : Action unit :=
  modify (set_warnings (λ l, l ++ [errorName])).

(** [console.log( a, b )]. *)
Definition console_log (label content : string) : Action unit :=
  modify (set_console (λ l, l ++ [(label, content)])).

(** Modelled from the spec: the host's [modelElement.getAttribute( key )] on
    the element object; [None] is [undefined], for a key that is missing and
    for a key that holds [undefined]. *)
Definition getAttribute (modelElement : ElementRef) (key : string) : Action (option string) :=
  gets (λ w, elements w !! modelElement ≫= λ el, default None (attributes el !! key)).

(** Modelled from the spec: the host's [modelElement.hasAttribute( key )]. *)
Definition hasAttribute (modelElement : ElementRef) (key : string) : Action bool :=
  gets (λ w, bool_decide (is_Some (elements w !! modelElement ≫= λ el, attributes el !! key))).

(** Modelled from the spec: the host's [modelElement._setAttribute( key, value )],
    the direct assignment that goes around the host's change tracking: the
    element's own attribute map is overwritten in place and no change block is
    opened. *)
Definition _setAttribute (modelElement : ElementRef) (key value : string) : Action unit :=
  modify (set_elements
    (alter (λ el, mkModelElement (name el) (<[key := Some value]> (attributes el)))
       modelElement)).

(** Modelled from the spec: the host's [writer.createElement( name, attrs )]:
    a new element object holding every key of [attrs]; a key given the value
    [undefined] is kept and holds [undefined]. *)
Definition createElement_attributes (attrs : list (string * option string))
    : gmap string (option string) :=
  foldr (λ kv m, <[kv.1 := kv.2]> m) ∅ attrs.

(** Modelled from the spec: the allocation of the new element object by
    [writer.createElement]. *)
Definition writer_createElement (elementName : string) (attrs : list (string * option string))
    : Action ElementRef :=
  λ w, let r := fresh (dom (elements w)) in
       (r, set_elements (<[r := mkModelElement elementName (createElement_attributes attrs)]>) w).

(** Modelled from the spec: the host's
    [model.document.selection.getSelectedElement()]; [None] is [null]. *)
Definition getSelectedElement : Action (option ElementRef) :=
  gets (λ w, match selection w with SelectionOn e => Some e | _ => None end).

(** Modelled from the spec: the host's [writer.setSelection( element, 'on' )],
    after which the element is the host's selected element. *)
Definition writer_setSelection_on (modelElement : ElementRef) : Action unit :=
  modify (set_selection (SelectionOn modelElement)).

(** Modelled from the spec: the host's [model.change( callback )]: the
    callback runs inside a change block, which is counted. *)
Definition model_change {A} (callback : Action A) : Action A :=
  modify (set_changeBlocks S);; callback.

(** [buttonView.element && buttonView.element.isConnected]. *)
Definition element_isConnected (buttonView : ButtonView) : Action bool :=
  gets (λ w, match element buttonView with
             | Some d => bool_decide (d ∈ connected w)
             | None => false
             end).

(** Modelled from the spec: the host's [buttonView.destroy()]; each disposal
    is recorded. *)
Definition destroy (buttonView : ButtonView) : Action unit :=
  modify (set_destroyed (λ l, l ++ [buttonView])).

(** [Set.prototype.delete]. *)
Definition references_delete (buttonView : ButtonView) : Action unit :=
  modify (set_references (filter (λ b, b ≠ buttonView))).

(** Modelled from the spec: the host's registration calls [schema.register],
    [commands.add], [view.on( 'render', ... )], [registerRawContentMatcher]
    and [conversion.for( ... )]; each records what it is given. *)
Definition schema_register (itemName : string) (definition : SchemaItemDefinition) : Action unit :=
  modify (set_schema (λ l, l ++ [(itemName, definition)])).

Definition commands_add (commandName : string) : Action unit :=
  modify (set_commands (λ l, l ++ [commandName])).

Definition view_on_render (callback : RenderCallback) (priority : Priority) : Action unit :=
  modify (set_renderListeners (λ l, l ++ [(callback, priority)])).

Definition registerRawContentMatcher (pattern : MatcherPattern) : Action unit :=
  modify (set_rawContentMatchers (λ l, l ++ [pattern])).

Definition conversion_add (c : Converter) : Action unit :=
  modify (set_converters (λ l, l ++ [c])).

(** JavaScript's [value || fallback] on a string that may be [undefined]:
    [undefined] and the empty string are falsy. *)
Definition or_else (value : option string) (fallback : string) : string :=
  match value with
  | Some s => if decide (s = "") then fallback else s
  | None => fallback
  end.

(** ** codemirror.ts *)

Module CodeMirror.

(** [update.state.doc.toString()]. *)
Record ViewUpdate := mkViewUpdate { state_doc : string }.

Inductive KeyBindings :=
| closeBracketsKeymap | defaultKeymap | searchKeymap | historyKeymap
| foldKeymap | completionKeymap | lintKeymap.

Inductive Extension :=
| lineNumbers | highlightActiveLineGutter | highlightSpecialChars | history
| foldGutter | drawSelection | dropCursor
| allowMultipleSelections (b : bool)
| indentOnInput
| syntaxHighlighting_default (fallback : bool)
| bracketMatching | closeBrackets | autocompletion | rectangularSelection
| crosshairCursor | highlightActiveLine | highlightSelectionMatches | html
| keymap (bindings : list KeyBindings)
| placeholder (text : string)
| updateListener (listener : ViewUpdate → Action unit).

Definition basicSetup : list Extension :=
  [ lineNumbers; highlightActiveLineGutter; highlightSpecialChars; history;
    foldGutter; drawSelection; dropCursor; allowMultipleSelections true;
    indentOnInput; syntaxHighlighting_default true; bracketMatching;
    closeBrackets; autocompletion; rectangularSelection; crosshairCursor;
    highlightActiveLine; highlightSelectionMatches; html;
    keymap [ closeBracketsKeymap; defaultKeymap; searchKeymap; historyKeymap;
             foldKeymap; completionKeymap; lintKeymap ] ].

(** The library's editor state, which is not among the sources: it keeps the
    document as lines, [Text.of( doc.split( /\r\n?|\n/ ) )], and
    [doc.toString()] joins the lines with a line feed.  [lines_toString] is
    that round: a carriage return, with the line feed that follows it if there
    is one, becomes a line feed. *)
Fixpoint lines_toString_from (afterCR : bool) (text : string) : string :=
  match text with
  | EmptyString => EmptyString
  | String c rest =>
      if Ascii.eqb c "013"%char then String "010"%char (lines_toString_from true rest)
      else if Ascii.eqb c "010"%char && afterCR then lines_toString_from false rest
      else String c (lines_toString_from false rest)
  end.

Definition lines_toString (text : string) : string := lines_toString_from false text.

(** An editor view: the document it shows, as [state.doc.toString()] gives
    it, and the extensions it was configured with. *)
Record EditorView := mkEditorView {
  doc : string;
  extensions : list Extension
}.

End CodeMirror.

(** ** DOM elements *)

(** An attribute value as the source writes it: a string, or a nested object
    literal (the [attributes: { ... }] key of the content wrapper). *)
Inductive AttributeValue :=
| AttrString (s : string)
| AttrObject (fields : list (string * string)).

(** A DOM element is a value here: an operation that mutates one returns the
    new element.  [DomMarkup s] records that [s] was assigned to [innerHTML]:
    the plugin hands the markup to the browser as it is, and the browser
    parses it; what is read back or saved is the browser's serialisation of
    the parsed markup ([saved_innerHTML] below), not the assigned string. *)
Inductive HTMLElement :=
| mkHTMLElement (tagName : string) (domAttributes : list (string * AttributeValue))
    (childNodes : list DomNode) (captureListeners : list (string * Action unit))
with DomNode :=
| DomMarkup (markup : string)
| DomText (text : string)
| DomEditorView (cm : CodeMirror.EditorView)
| DomChild (e : HTMLElement).

Definition tagName (e : HTMLElement) : string :=
  let 'mkHTMLElement n _ _ _ := e in n.
Definition domAttributes (e : HTMLElement) : list (string * AttributeValue) :=
  let 'mkHTMLElement _ a _ _ := e in a.
Definition childNodes (e : HTMLElement) : list DomNode :=
  let 'mkHTMLElement _ _ c _ := e in c.
Definition captureListeners (e : HTMLElement) : list (string * Action unit) :=
  let 'mkHTMLElement _ _ _ l := e in l.

(** Modelled from the spec: [createElement( document, name, attributes )] of
    the host's utils, a new element with these attributes and no children. *)
Definition createElement (elementName : string) (attrs : list (string * AttributeValue))
    : HTMLElement :=
  mkHTMLElement elementName attrs [] [].

(** [domElement.innerHTML = markup]. *)
Definition set_innerHTML (markup : string) (e : HTMLElement) : HTMLElement :=
  mkHTMLElement (tagName e) (domAttributes e) [DomMarkup markup] (captureListeners e).

(** [domElement.textContent = text]: the children are replaced by one text
    node, by nothing when the text is empty. *)
Definition set_textContent (text : string) (e : HTMLElement) : HTMLElement :=
  mkHTMLElement (tagName e) (domAttributes e)
    (if decide (text = "") then [] else [DomText text]) (captureListeners e).

(** [domElement.append( node )]. *)
Definition append (node : DomNode) (e : HTMLElement) : HTMLElement :=
  mkHTMLElement (tagName e) (domAttributes e) (childNodes e ++ [node]) (captureListeners e).

(** [domElement.addEventListener( type, listener, true )]. *)
Definition addEventListener_capture (type : string) (listener : Action unit) (e : HTMLElement)
    : HTMLElement :=
  mkHTMLElement (tagName e) (domAttributes e) (childNodes e)
    (captureListeners e ++ [(type, listener)]).

Module CodeMirrorInit.
Import CodeMirror.

(** [init]: [new EditorView( { doc, extensions, parent } )]; the view's
    state holds [doc] as lines, and the view's DOM is appended to [parent]. *)
Definition init (parent : HTMLElement) (doc : string)
    (contentUpdate : string → Action unit) (placeholderString : string)
    : EditorView * HTMLElement :=
  let view :=
    mkEditorView (lines_toString doc)
      (basicSetup ++
       [ placeholder placeholderString;
         updateListener (λ update,
           let content := state_doc update in
           console_log "update received" content;;
           contentUpdate content) ]) in
  (view, append (DomEditorView view) parent).

End CodeMirrorInit.

(** ** View elements *)

(** A view element as the upcast converter receives it. *)
Record ViewElement := mkViewElement {
  view_name : string;
  view_classes : list string;
  customProperties : gmap string string
}.

(** Modelled from the spec: the host's [viewElement.getCustomProperty( key )];
    [None] is [undefined].  For an element matched as raw content the host
    keeps the captured markup under [$rawContent]. *)
Definition getCustomProperty (viewElement : ViewElement) (key : string) : option string :=
  customProperties viewElement !! key.

(** A raw view element: the host builds the DOM element and hands it to
    [render], which fills it by hand; the host does not diff its content. *)
Record RawElement := mkRawElement {
  raw_name : string;
  raw_attributes : list (string * AttributeValue);
  render : HTMLElement → Action HTMLElement
}.

(** JavaScript's [String( value )] on an attribute value. *)
Definition stringified (value : AttributeValue) : AttributeValue :=
  match value with
  | AttrString s => AttrString s
  | AttrObject _ => AttrString "[object Object]"
  end.

(** Modelled from the spec: the host's [writer.createRawElement]; a view
    element keeps its attribute values as strings, so a value that is not a
    string is stringified. *)
Definition writer_createRawElement (elementName : string)
    (attrs : list (string * AttributeValue)) (renderFunction : HTMLElement → Action HTMLElement)
    : RawElement :=
  mkRawElement elementName ((λ kv, (kv.1, stringified kv.2)) <$> attrs) renderFunction.

(** Modelled from the spec: the host's [writer.setAttribute( key, value, element )]
    on a raw element. *)
Definition writer_setAttribute (key value : string) (e : RawElement) : RawElement :=
  mkRawElement (raw_name e)
    (filter (λ kv, kv.1 ≠ key) (raw_attributes e) ++ [(key, AttrString value)])
    (render e).

Record ContainerElement := mkContainerElement {
  container_name : string;
  container_attributes : list (string * AttributeValue);
  container_children : list RawElement;
  container_customProperties : list (string * bool)
}.

(** Modelled from the spec: the host's [writer.createContainerElement] with
    one child. *)
Definition writer_createContainerElement (elementName : string)
    (attrs : list (string * AttributeValue)) (child : RawElement) : ContainerElement :=
  mkContainerElement elementName attrs [child] [].

(** Modelled from the spec: the host's [writer.setCustomProperty]. *)
Definition writer_setCustomProperty (key : string) (value : bool) (e : ContainerElement)
    : ContainerElement :=
  mkContainerElement (container_name e) (container_attributes e) (container_children e)
    (container_customProperties e ++ [(key, value)]).

(** Modelled from the spec: [toWidget( element, writer, { label, hasSelectionHandle } )]
    of the host's widget package; its call is kept as the record of its
    arguments. *)
Record Widget := toWidget {
  widget_element : ContainerElement;
  widget_label : string;
  widget_hasSelectionHandle : bool
}.

(** Modelled from the spec: the host turning a raw view element into DOM: it
    creates the element and calls the render function on it. *)
Definition renderToDom (raw : RawElement) : Action HTMLElement :=
  render raw (createElement (raw_name raw) (raw_attributes raw)).

(** ** htmlembedediting.ts *)

(** [{ html, hasChanged }], the result of a sanitize function. *)
Record SanitizeOutput := mkSanitizeOutput {
  html : string;
  hasChanged : bool
}.

(** The [htmlEmbed] configuration; [None] is a key that is not set. *)
Record HtmlEmbedConfig := mkHtmlEmbedConfig {
  showPreviews : option bool;
  sanitizeHtml : option (string → Action SanitizeOutput)
}.

(** Modelled from the spec: the host's [config.define( name, defaults )]: a
    default fills a key only when the key is not set. *)
Definition config_define (defaults config : HtmlEmbedConfig) : HtmlEmbedConfig :=
  {| showPreviews :=
       match showPreviews config with Some b => Some b | None => showPreviews defaults end;
     sanitizeHtml :=
       match sanitizeHtml config with Some f => Some f | None => sanitizeHtml defaults end |}.

(** What the plugin reads of the editor besides its mutable state. *)
Record Editor := mkEditor {
  config_htmlEmbed : HtmlEmbedConfig;
  t : string → string;
  uiLanguageDirection : string
}.

Module HtmlEmbedEditing.

Definition pluginName : string := "HtmlEmbedEditing".

(** The default [sanitizeHtml] of the constructor. *)
Definition default_sanitizeHtml (rawHtml : string) : Action SanitizeOutput :=
  logWarning "html-embed-provide-sanitize-function";;
  mret {| html := rawHtml; hasChanged := false |}.

(** [constructor( editor )]: the field initialiser makes the reference set
    empty, and the configuration defaults are defined. *)
Definition constructor (editor : Editor) : Action Editor :=
  modify (set_references (λ _, []));;
  mret (mkEditor
    (config_define
       {| showPreviews := Some false; sanitizeHtml := Some default_sanitizeHtml |}
       (config_htmlEmbed editor))
    (t editor) (uiLanguageDirection editor)).

(** The ['render'] listener of [_setupConversion].  The loop walks the set
    in insertion order; [return] leaves the listener. *)
Fixpoint render_listener_loop (iteration : list ButtonView) : Action unit :=
  match iteration with
  | [] => mret tt
  | buttonView :: rest =>
      isConnected ← element_isConnected buttonView;
      if isConnected : bool then mret tt
      else
        destroy buttonView;;
        references_delete buttonView;;
        render_listener_loop rest
  end.

Definition render_listener : Action unit :=
  widgetButtonViewReferences ← gets _widgetButtonViewReferences;
  render_listener_loop widgetButtonViewReferences.

(** The upcast converter's [view] pattern and [model] callback. *)
Definition upcast_view : MatcherPattern :=
  {| pattern_name := "div"; pattern_classes := "raw-html-embed" |}.

Definition upcast_model (viewElement : ViewElement) : Action ElementRef :=
  writer_createElement "rawHtml"
    [("value", getCustomProperty viewElement "$rawContent")].

(** The data downcast converter's [view] callback. *)
Definition dataDowncast_view (modelElement : ElementRef) : RawElement :=
  writer_createRawElement "div" [("class", AttrString "raw-html-embed")]
    (λ domElement,
       value ← getAttribute modelElement "value";
       mret (set_innerHTML (or_else value "") domElement)).

(** [renderContent]. *)
Definition renderContent (editor : Editor) (domElement : HTMLElement)
    (getRawHtmlValue : Action string) (setRawHtmlValue : string → Action unit)
    : Action (CodeMirror.EditorView * HTMLElement) :=
  let domElement := set_textContent "" domElement in
  let domTextarea :=
    createElement "div"
      [("class", AttrString "ck ck-reset ck-input ck-input-text raw-html-embed__source")] in
  value ← getRawHtmlValue;
  let '(cmi, domTextarea) :=
    CodeMirrorInit.init domTextarea value setRawHtmlValue
      (t editor "Paste raw HTML here...") in
  mret (cmi, append (DomChild domTextarea) domElement).

(** The ['mousedown'] capture listener of the content wrapper. *)
Definition mousedown_listener (modelElement : ElementRef) : Action unit :=
  selectedElement ← getSelectedElement;
  if decide (selectedElement ≠ Some modelElement)
  then model_change (writer_setSelection_on modelElement)
  else mret tt.

Definition setRawHtmlValue (modelElement : ElementRef) (content : string) : Action unit :=
  _setAttribute modelElement "value" content.

Definition getRawHtmlValue (modelElement : ElementRef) : Action string :=
  value ← getAttribute modelElement "value";
  mret (or_else value "").

(** The render function of the content wrapper. *)
Definition contentWrapper_render (editor : Editor) (modelElement : ElementRef)
    (domElement : HTMLElement) : Action HTMLElement :=
  '(_, domElement) ← renderContent editor domElement
                       (getRawHtmlValue modelElement) (setRawHtmlValue modelElement);
  mret (addEventListener_capture "mousedown" (mousedown_listener modelElement) domElement).

(** The editing downcast converter's [view] callback. *)
Definition editingDowncast_view (editor : Editor) (modelElement : ElementRef) : Widget :=
  let viewContentWrapper :=
    writer_createRawElement "div"
      [ ("attributes", AttrObject [("data-cke-ignore-events", "true")]);
        ("class", AttrString "raw-html-embed__content-wrapper") ]
      (contentWrapper_render editor modelElement) in
  let viewContentWrapper :=
    writer_setAttribute "data-cke-ignore-events" "true" viewContentWrapper in
  let viewContainer :=
    writer_createContainerElement "div"
      [ ("class", AttrString "raw-html-embed");
        ("data-html-embed-label", AttrString (t editor "HTML snippet"));
        ("dir", AttrString (uiLanguageDirection editor)) ]
      viewContentWrapper in
  let viewContainer := writer_setCustomProperty "rawHtml" true viewContainer in
  toWidget viewContainer (t editor "HTML snippet") true.

(** [_setupConversion]. *)
Definition _setupConversion : Action unit :=
  view_on_render SweepWidgetButtons PriorityLowest;;
  registerRawContentMatcher {| pattern_name := "div"; pattern_classes := "raw-html-embed" |};;
  conversion_add UpcastRawHtml;;
  conversion_add DataDowncastRawHtml;;
  conversion_add EditingDowncastRawHtml.

(** [init]. *)
Definition init : Action unit :=
  schema_register "rawHtml"
    {| inheritAllFrom := "$blockObject"; allowAttributes := ["value"] |};;
  commands_add "htmlEmbed";;
  _setupConversion.

End HtmlEmbedEditing.

(** ** The host driving the plugin *)

(** The editor views found below a DOM element. *)
Fixpoint editorViewsOf (e : HTMLElement) : list CodeMirror.EditorView :=
  match e with
  | mkHTMLElement _ _ children _ =>
      (fix go (l : list DomNode) : list CodeMirror.EditorView :=
         match l with
         | [] => []
         | n :: l' => nodeEditorViews n ++ go l'
         end) children
  end
with nodeEditorViews (n : DomNode) : list CodeMirror.EditorView :=
  match n with
  | DomMarkup _ | DomText _ => []
  | DomEditorView cm => [cm]
  | DomChild e => editorViewsOf e
  end.

(** Running a list of callbacks one after the other. *)
Fixpoint run_all (callbacks : list (Action unit)) : Action unit :=
  match callbacks with
  | [] => mret tt
  | c :: rest => c;; run_all rest
  end.

(** The update listeners among the extensions of an editor view. *)
Definition updateListenersOf (cm : CodeMirror.EditorView) : list (CodeMirror.ViewUpdate → Action unit) :=
  omap (λ x, match x with CodeMirror.updateListener f => Some f | _ => None end)
       (CodeMirror.extensions cm).

(** The editor view reports an update whose document is [content]: every
    update listener is called with it. *)
Definition emit_update (cm : CodeMirror.EditorView) (content : string) : Action unit :=
  run_all ((λ f, f (CodeMirror.mkViewUpdate content)) <$> updateListenersOf cm).

(** An event of type [type] reaches a DOM element: its capture listeners for
    that type run. *)
Definition dispatchEvent_capture (type : string) (e : HTMLElement) : Action unit :=
  run_all ((λ l, l.2) <$> filter (λ l, l.1 = type) (captureListeners e)).

Definition run_render_callback (c : RenderCallback) : Action unit :=
  match c with
  | SweepWidgetButtons => HtmlEmbedEditing.render_listener
  end.

(** Modelled from the spec: the host's editing view fires ['render'] and the
    registered listeners run. *)
Definition fire_render : Action unit :=
  listeners ← gets renderListeners;
  run_all ((λ l, run_render_callback l.1) <$> listeners).

(** Modelled from the spec: the host's matcher for a [{ name, classes }]
    pattern. *)
Definition matches (pattern : MatcherPattern) (viewElement : ViewElement) : bool :=
  bool_decide (view_name viewElement = pattern_name pattern) &&
  bool_decide (pattern_classes pattern ∈ view_classes viewElement).

(** Modelled from the spec: the host's conversion pipelines: a registered
    converter runs on what its [view] pattern or [model] name selects. *)
Definition convert_upcast (viewElement : ViewElement) : Action (option ElementRef) :=
  registered ← gets converters;
  if bool_decide (UpcastRawHtml ∈ registered) &&
     matches HtmlEmbedEditing.upcast_view viewElement
  then modelElement ← HtmlEmbedEditing.upcast_model viewElement; mret (Some modelElement)
  else mret None.

Definition is_rawHtml (modelElement : ElementRef) : Action bool :=
  gets (λ w, bool_decide (name <$> elements w !! modelElement = Some "rawHtml")).

Definition convert_dataDowncast (modelElement : ElementRef) : Action (option RawElement) :=
  registered ← gets converters;
  selected ← is_rawHtml modelElement;
  if bool_decide (DataDowncastRawHtml ∈ registered) && selected
  then mret (Some (HtmlEmbedEditing.dataDowncast_view modelElement))
  else mret None.

Definition convert_editingDowncast (editor : Editor) (modelElement : ElementRef)
    : Action (option Widget) :=
  registered ← gets converters;
  selected ← is_rawHtml modelElement;
  if bool_decide (EditingDowncastRawHtml ∈ registered) && selected
  then mret (Some (HtmlEmbedEditing.editingDowncast_view editor modelElement))
  else mret None.

(** Rendering the raw children of a widget's container to DOM. *)
Fixpoint renderAllToDom (raws : list RawElement) : Action (list HTMLElement) :=
  match raws with
  | [] => mret []
  | raw :: rest =>
      domElement ← renderToDom raw;
      others ← renderAllToDom rest;
      mret (domElement :: others)
  end.

(** A session: the host state and the content wrappers in the editing DOM. *)
Record Session := mkSession {
  world : World;
  wrappers : list HTMLElement
}.

(** What can happen to an editor with the plugin loaded, as far as the
    sources go: the host fires ['render'], changes the document's attachment
    or the selection, runs a conversion (an upcast runs inside a change block
    of the host), and the user types in a source editor or presses the mouse
    on a wrapper.  Executing the [htmlEmbed] command is not among the events:
    [htmlembedcommand.ts] is not among the sources. *)
Inductive Event :=
| Render
| DomChange (attached : gset DomRef)
| SelectionChange (s : Selection)
| Upcast (viewElement : ViewElement)
| DataDowncast (modelElement : ElementRef)
| EditingDowncast (modelElement : ElementRef)
| SourceUpdate (wrapper : nat) (content : string)
| MouseDown (wrapper : nat).

Definition in_world (m : Action unit) (s : Session) : Session :=
  mkSession (exec m (world s)) (wrappers s).

Definition step (editor : Editor) (s : Session) (ev : Event) : Session :=
  match ev with
  | Render => in_world fire_render s
  | DomChange attached => in_world (modify (set_connected attached)) s
  | SelectionChange sel => in_world (model_change (modify (set_selection sel))) s
  | Upcast viewElement => in_world (model_change (convert_upcast viewElement);; mret tt) s
  | DataDowncast modelElement =>
      in_world (raw ← convert_dataDowncast modelElement;
                match raw with
                | Some raw => renderToDom raw;; mret tt
                | None => mret tt
                end) s
  | EditingDowncast modelElement =>
      let '(rendered, w) :=
        (widget ← convert_editingDowncast editor modelElement;
         match widget with
         | Some widget => renderAllToDom (container_children (widget_element widget))
         | None => mret []
         end) (world s) in
      mkSession w (wrappers s ++ rendered)
  | SourceUpdate i content =>
      match wrappers s !! i with
      | Some wrapper =>
          in_world (run_all ((λ cm, emit_update cm content) <$> editorViewsOf wrapper)) s
      | None => s
      end
  | MouseDown i =>
      match wrappers s !! i with
      | Some wrapper => in_world (dispatchEvent_capture "mousedown" wrapper) s
      | None => s
      end
  end.

Definition run (editor : Editor) (events : list Event) (s : Session) : Session :=
  foldl (step editor) s events.

(** Loading the plugin into a fresh editor: [new HtmlEmbedEditing( editor )]
    and then [init()]. *)
Definition load (editor : Editor) : Editor * Session :=
  let '(editor', w) :=
    (editor' ← HtmlEmbedEditing.constructor editor;
     HtmlEmbedEditing.init;;
     mret editor') emptyWorld in
  (editor', mkSession w []).

(** * Rendered widgets, invariants and sample states *)

(** ** Rendered widgets and the sweep *)

(** The source editor that [renderContent] opens on a value. *)
Definition sourceEditorOn (editor : Editor) (modelElement : ElementRef) (value : string)
    : CodeMirror.EditorView :=
  (CodeMirrorInit.init
     (createElement "div"
        [("class", AttrString "ck ck-reset ck-input ck-input-text raw-html-embed__source")])
     value (HtmlEmbedEditing.setRawHtmlValue modelElement)
     (t editor "Paste raw HTML here...")).1.

(** The content wrappers the editing downcast of an element puts in the DOM. *)
Definition renderedWrappers (editor : Editor) (modelElement : ElementRef) : Action (list HTMLElement) :=
  renderAllToDom
    (container_children
       (widget_element (HtmlEmbedEditing.editingDowncast_view editor modelElement))).

(** The source editors opened for an element when its widget is rendered in
    the host state [w]. *)
Definition sourceEditors (editor : Editor) (modelElement : ElementRef) (w : World)
    : list CodeMirror.EditorView :=
  flat_map editorViewsOf (eval (renderedWrappers editor modelElement) w).

(** What fills a rendered content wrapper: markup rendered as a preview, or
    the source editor. *)
Inductive WrapperContent :=
| RenderedPreview (markup : string)
| SourceEditor (cm : CodeMirror.EditorView).

Definition wrapperContent (wrapper : HTMLElement) : option WrapperContent :=
  match childNodes wrapper with
  | [DomChild child] =>
      match childNodes child with
      | [DomMarkup markup] => Some (RenderedPreview markup)
      | [DomEditorView cm] => Some (SourceEditor cm)
      | _ => None
      end
  | _ => None
  end.

(** The buttons the loop reaches: those in front of the first button whose
    element is attached. *)
Fixpoint reached (attached : gset DomRef) (iteration : list ButtonView) : list ButtonView :=
  match iteration with
  | [] => []
  | buttonView :: rest =>
      if match element buttonView with
         | Some d => bool_decide (d ∈ attached)
         | None => false
         end
      then []
      else buttonView :: reached attached rest
  end.

(** ** Invariants of a session *)

(** A property of the host state that an action keeps. *)
Definition stable (P : World → Prop) {A} (m : Action A) : Prop :=
  ∀ w, P w → P (exec m w).

(** The part of the host state that only the render listener and the sanitize
    function write: the reference set, the destroyed views, the warnings. *)
Definition untouched (w : World) : Prop :=
  _widgetButtonViewReferences w = [] ∧ destroyed w = [] ∧ warnings w = [].

(** The listeners a content wrapper carries keep the untouched part. *)
Definition wrapper_quiet (wrapper : HTMLElement) : Prop :=
  Forall (λ l, stable untouched l.2) (captureListeners wrapper) ∧
  Forall (λ cm, Forall (λ f, ∀ update, stable untouched (f update)) (updateListenersOf cm))
         (editorViewsOf wrapper).

Definition session_quiet (s : Session) : Prop :=
  untouched (world s) ∧ Forall wrapper_quiet (wrappers s).

(** ** Sample editors, views and host states *)

Definition previewing_editor : Editor :=
  {| config_htmlEmbed := {| showPreviews := Some true; sanitizeHtml := None |};
     t := λ message, message;
     uiLanguageDirection := "ltr" |}.

Definition embed_view : ViewElement :=
  {| view_name := "div"; view_classes := ["raw-html-embed"];
     customProperties := {["$rawContent" := "<b>&amp;</b>"]} |}.

Definition bare_view : ViewElement :=
  {| view_name := "div"; view_classes := ["raw-html-embed"]; customProperties := ∅ |}.

(** The host state after the plugin is loaded and one embed is upcast. *)
Definition one_embed : World :=
  world (run (load previewing_editor).1 [Upcast embed_view] (load previewing_editor).2).

(** The host state after an embed without captured content is upcast. *)
Definition one_bare_embed : World :=
  world (run (load previewing_editor).1 [Upcast bare_view] (load previewing_editor).2).

Definition attached_button : ButtonView := mkButtonView 1 (Some 1%positive).
Definition detached_button : ButtonView := mkButtonView 2 (Some 2%positive).

(** A loaded editor whose reference set holds a button that is still in the
    document followed by one that is not. *)
Definition attached_then_detached : World :=
  set_connected {[1%positive]}
    (set_references (λ _, [attached_button; detached_button])
       (world (load previewing_editor).2)).

Definition detached_then_attached : World :=
  set_connected {[1%positive]}
    (set_references (λ _, [detached_button; attached_button])
       (world (load previewing_editor).2)).

(** ** Two properties the plugin does not have *)

(** The formal reading of "one warning per plugin initialization, whatever is
    rendered afterwards". *)
Definition one_warning_per_initialization (editor : Editor) : Prop :=
  showPreviews (config_htmlEmbed editor) = Some true →
  sanitizeHtml (config_htmlEmbed editor) = None →
  ∀ events,
    length (warnings (world (run (load editor).1 events (load editor).2))) = 1.

(** The formal reading of "a rendered preview when previews are enabled, the
    source editor otherwise". *)
Definition preview_when_configured (editor : Editor) (modelElement : ElementRef) (w : World)
    : Prop :=
  ∀ wrapper, wrapper ∈ eval (renderedWrappers editor modelElement) w →
    if default false (showPreviews (config_htmlEmbed editor))
    then ∃ markup, wrapperContent wrapper = Some (RenderedPreview markup)
    else ∃ cm, wrapperContent wrapper = Some (SourceEditor cm).

(** ** More sample states *)

Definition never_rendered_button : ButtonView := mkButtonView 3 None.

(** A loaded editor whose reference set holds a detached button and one that
    was never rendered, nothing being attached. *)
Definition all_detached : World :=
  set_references (λ _, [detached_button; never_rendered_button])
    (world (load previewing_editor).2).

Definition paragraph_view : ViewElement :=
  {| view_name := "p"; view_classes := ["raw-html-embed"];
     customProperties := {["$rawContent" := "text"]} |}.

(** ** Sessions of the plugin *)

(** A content wrapper that the plugin's editing downcast rendered. *)
Definition rendered_by (editor : Editor) (wrapper : HTMLElement) : Prop :=
  ∃ modelElement w0, wrapper ∈ eval (renderedWrappers editor modelElement) w0.

(** What the plugin has registered with the host. *)
Definition registrations (w : World)
    : list (string * SchemaItemDefinition) * list string *
      list (RenderCallback * Priority) * list MatcherPattern * list Converter :=
  (schema w, commands w, renderListeners w, rawContentMatchers w, converters w).

(** ** The browser's side of [innerHTML] *)






(** ** Line breaks *)

Fixpoint mentions (c : ascii) (text : string) : bool :=
  match text with
  | EmptyString => false
  | String c' rest => Ascii.eqb c c' || mentions c rest
  end.

(** ** More sample views and host states *)


(** A value with a carriage return, as [a&#13;b] leaves it. *)
Definition cr_value : string := String "a" (String "013" (String "b" EmptyString)).

Definition cr_view : ViewElement :=
  {| view_name := "div"; view_classes := ["raw-html-embed"];
     customProperties := {["$rawContent" := cr_value]} |}.

Definition one_cr_embed : World :=
  world (run (load previewing_editor).1 [Upcast cr_view] (load previewing_editor).2).

(** ** Three more properties the plugin does not have *)



(** The formal reading of "the initial document is exactly the current
    value". *)
Definition opens_on_exact_value (editor : Editor) (modelElement : ElementRef) (w : World)
    : Prop :=
  ∀ value, eval (getAttribute modelElement "value") w = Some value →
    CodeMirror.doc <$> sourceEditors editor modelElement w = [value].

(** ** The plural rule of the Slovak catalogue *)

(** [nplurals=4; plural=(n % 1 == 0 && n == 1 ? 0 : n % 1 == 0 && n >= 2 && n <= 4 ? 1
    : n % 1 != 0 ? 2: 3);] on a whole number [n]; [%] is the remainder of the
    truncating division. *)
Definition nplurals : Z := 4.

Definition plural (n : Z) : Z :=
  if (Z.rem n 1 =? 0)%Z && (n =? 1)%Z then 0%Z
  else if (Z.rem n 1 =? 0)%Z && (2 <=? n)%Z && (n <=? 4)%Z then 1%Z
  else if negb (Z.rem n 1 =? 0)%Z then 2%Z
  else 3%Z.

(** * Properties *)

(** ** What the callbacks compute *)

Lemma or_else_empty (value : option string) : or_else value "" = default "" value.
Proof. destruct value as [s|]; simpl; [|done]. by case_decide. Qed.

(** The content wrapper's render function leaves the host state alone and
    fills the element with one child, the source element holding the editor
    view, and adds the mousedown listener. *)
Lemma contentWrapper_render_eq editor modelElement domElement w :
  HtmlEmbedEditing.contentWrapper_render editor modelElement domElement w =
  (mkHTMLElement (tagName domElement) (domAttributes domElement)
     [DomChild (mkHTMLElement "div"
        [("class", AttrString "ck ck-reset ck-input ck-input-text raw-html-embed__source")]
        [DomEditorView
           (sourceEditorOn editor modelElement
              (default "" (eval (getAttribute modelElement "value") w)))] [])]
     (captureListeners domElement ++
      [("mousedown", HtmlEmbedEditing.mousedown_listener modelElement)]),
   w).
Proof. rewrite <- or_else_empty. by destruct domElement. Qed.

(** The data downcast's render function writes the value, or the empty string
    for [undefined], into [innerHTML] and leaves the host state alone. *)
Lemma dataDowncast_render_eq modelElement w :
  renderToDom (HtmlEmbedEditing.dataDowncast_view modelElement) w =
  (mkHTMLElement "div" [("class", AttrString "raw-html-embed")]
     [DomMarkup (default "" (eval (getAttribute modelElement "value") w))] [],
   w).
Proof. by rewrite <- or_else_empty. Qed.

Lemma renderedWrappers_eq editor modelElement w :
  renderedWrappers editor modelElement w =
  ([mkHTMLElement "div"
      [ ("attributes", AttrString "[object Object]");
        ("class", AttrString "raw-html-embed__content-wrapper");
        ("data-cke-ignore-events", AttrString "true") ]
      [DomChild (mkHTMLElement "div"
         [("class", AttrString "ck ck-reset ck-input ck-input-text raw-html-embed__source")]
         [DomEditorView
            (sourceEditorOn editor modelElement
               (default "" (eval (getAttribute modelElement "value") w)))] [])]
      [("mousedown", HtmlEmbedEditing.mousedown_listener modelElement)]],
   w).
Proof.
  unfold renderedWrappers, renderAllToDom, renderToDom; simpl.
  unfold mbind, Action_bind at 1.
  by rewrite contentWrapper_render_eq.
Qed.

Lemma sourceEditors_eq editor modelElement w :
  sourceEditors editor modelElement w =
  [sourceEditorOn editor modelElement
     (default "" (eval (getAttribute modelElement "value") w))].
Proof. unfold sourceEditors, eval. by rewrite renderedWrappers_eq. Qed.

(** ** The default sanitize function *)

(** C8: the default sanitize function returns its input unchanged with
    [hasChanged] false, and its only effect is one logged warning. *)
Theorem default_sanitizeHtml_passes_input_through (rawHtml : string) (w : World) :
  HtmlEmbedEditing.default_sanitizeHtml rawHtml w =
  ({| html := rawHtml; hasChanged := false |},
   set_warnings (λ l, l ++ ["html-embed-provide-sanitize-function"]) w).
Proof. reflexivity. Qed.

(** The constructor installs it when no sanitize function is configured. *)
Lemma constructor_default_sanitizeHtml editor w :
  sanitizeHtml (config_htmlEmbed editor) = None →
  sanitizeHtml (config_htmlEmbed (eval (HtmlEmbedEditing.constructor editor) w)) =
  Some HtmlEmbedEditing.default_sanitizeHtml.
Proof. intros H. simpl. by rewrite H. Qed.

(** ** Reading the value *)

Lemma lines_toString_without_CR (text : string) :
  mentions "013" text = false → CodeMirror.lines_toString text = text.
Proof.
  unfold CodeMirror.lines_toString.
  induction text as [|c rest IH]; [done|].
  cbn [mentions CodeMirror.lines_toString_from].
  intros [Hc Hrest]%orb_false_iff.
  rewrite Ascii.eqb_sym, Hc, andb_false_r. f_equal. by apply IH.
Qed.

(** A value holding a carriage return does not open as it is. *)
Lemma opens_on_exact_value_fails :
  ¬ opens_on_exact_value previewing_editor 1%positive one_cr_embed.
Proof.
  intros H. specialize (H cr_value eq_refl).
  vm_compute in H. discriminate H.
Qed.

(** C6, amended: the source editor opened for an element is given the
    element's ['value'] attribute as it is when the wrapper is rendered; its
    document is that value held as lines, so it is the value itself when the
    value holds no carriage return. *)
Theorem source_editor_starts_on_value_as_lines
    (editor : Editor) (modelElement : ElementRef) (w : World) (value : string) :
  eval (getAttribute modelElement "value") w = Some value →
  CodeMirror.doc <$> sourceEditors editor modelElement w =
    [CodeMirror.lines_toString value] ∧
  (mentions "013" value = false →
   CodeMirror.doc <$> sourceEditors editor modelElement w = [value]).
Proof.
  intros H. rewrite sourceEditors_eq, H. split; [reflexivity|].
  intros Hcr. simpl. by rewrite lines_toString_without_CR.
Qed.

Lemma source_editor_starts_on_value_as_lines_witness :
  eval (getAttribute 1%positive "value") one_embed = Some "<b>&amp;</b>" ∧
  CodeMirror.doc <$> sourceEditors previewing_editor 1%positive one_embed = ["<b>&amp;</b>"].
Proof.
  split; [by vm_compute|].
  apply (source_editor_starts_on_value_as_lines previewing_editor 1%positive one_embed);
    by vm_compute.
Defined.

(** C10: without a ['value'] attribute the data downcast writes the empty
    string into the div and the source editor starts on the empty string;
    both render functions return their element, there is no failure case. *)
Theorem absent_value_reads_as_empty
    (editor : Editor) (modelElement : ElementRef) (w : World) :
  eval (getAttribute modelElement "value") w = None →
  renderToDom (HtmlEmbedEditing.dataDowncast_view modelElement) w =
    (mkHTMLElement "div" [("class", AttrString "raw-html-embed")] [DomMarkup ""] [], w) ∧
  CodeMirror.doc <$> sourceEditors editor modelElement w = [""].
Proof.
  intros H. split.
  - by rewrite dataDowncast_render_eq, H.
  - by rewrite sourceEditors_eq, H.
Qed.

Lemma absent_value_reads_as_empty_witness :
  eval (getAttribute 1%positive "value") one_bare_embed = None ∧
  CodeMirror.doc <$> sourceEditors previewing_editor 1%positive one_bare_embed = [""].
Proof.
  split; [by vm_compute|].
  apply (absent_value_reads_as_empty previewing_editor 1%positive one_bare_embed).
  by vm_compute.
Defined.

(** ** Writing the value *)

Lemma emit_update_sourceEditorOn editor modelElement value content w :
  exec (emit_update (sourceEditorOn editor modelElement value) content) w =
  exec (_setAttribute modelElement "value" content)
    (exec (console_log "update received" content) w).
Proof. reflexivity. Qed.

Lemma getAttribute_after_setAttribute modelElement key value w :
  is_Some (elements w !! modelElement) →
  eval (getAttribute modelElement key) (exec (_setAttribute modelElement key value) w) =
  Some value.
Proof.
  intros [el Hel]. unfold eval, exec, getAttribute, _setAttribute, gets, modify; simpl.
  rewrite lookup_alter_eq, Hel. simpl. by rewrite lookup_insert_eq.
Qed.

(** C5: an update of the source editor with content [c] leaves the element's
    ['value'] attribute equal to [c]; the write is [_setAttribute] on the
    element itself and opens no change block. *)
Theorem update_listener_writes_value_directly
    (editor : Editor) (modelElement : ElementRef) (w0 w : World)
    (cm : CodeMirror.EditorView) (c : string) :
  is_Some (elements w !! modelElement) →
  cm ∈ sourceEditors editor modelElement w0 →
  let w' := exec (emit_update cm c) w in
  eval (getAttribute modelElement "value") w' = Some c ∧
  w' = exec (_setAttribute modelElement "value" c)
         (exec (console_log "update received" c) w) ∧
  changeBlocks w' = changeBlocks w.
Proof.
  intros Hel Hcm. rewrite sourceEditors_eq in Hcm.
  apply list_elem_of_singleton in Hcm; subst cm.
  simpl. rewrite emit_update_sourceEditorOn. split_and!; [|done..].
  by apply getAttribute_after_setAttribute.
Qed.

Lemma update_listener_writes_value_directly_witness :
  eval (getAttribute 1%positive "value")
    (exec (emit_update (sourceEditorOn previewing_editor 1%positive "<b>&amp;</b>") "<i>new</i>")
       one_embed) = Some "<i>new</i>".
Proof.
  apply (update_listener_writes_value_directly previewing_editor 1%positive one_embed one_embed).
  - eexists. by vm_compute.
  - rewrite sourceEditors_eq.
    replace (default "" (eval (getAttribute 1%positive "value") one_embed))
      with "<b>&amp;</b>" by (by vm_compute).
    apply list_elem_of_here.
Defined.

(** ** Selecting the widget *)

Lemma mousedown_listener_selects modelElement w :
  eval getSelectedElement (exec (HtmlEmbedEditing.mousedown_listener modelElement) w) =
  Some modelElement.
Proof.
  unfold HtmlEmbedEditing.mousedown_listener, eval, exec, getSelectedElement, gets.
  unfold mbind, Action_bind.
  case_decide as Hsel; simpl; done.
Qed.

(** C7: after a mousedown on a rendered content wrapper, the selected element
    of the model is the widget's element. *)
Theorem mousedown_selects_widget
    (editor : Editor) (modelElement : ElementRef) (w0 w : World) (wrapper : HTMLElement) :
  wrapper ∈ eval (renderedWrappers editor modelElement) w0 →
  eval getSelectedElement (exec (dispatchEvent_capture "mousedown" wrapper) w) =
  Some modelElement.
Proof.
  intros Hin. unfold eval in Hin. rewrite renderedWrappers_eq in Hin.
  apply list_elem_of_singleton in Hin; subst wrapper.
  pose proof (mousedown_listener_selects modelElement w) as H.
  unfold eval, exec in *.
  change (dispatchEvent_capture "mousedown" _ w)
    with ((HtmlEmbedEditing.mousedown_listener modelElement;; mret tt) w).
  unfold mbind, Action_bind.
  by destruct (HtmlEmbedEditing.mousedown_listener modelElement w).
Qed.

Lemma mousedown_selects_widget_witness :
  eval getSelectedElement
    (exec (dispatchEvent_capture "mousedown"
             (hd (createElement "div" [])
                (eval (renderedWrappers previewing_editor 1%positive) one_embed)))
       one_embed) = Some 1%positive.
Proof.
  apply (mousedown_selects_widget previewing_editor 1%positive one_embed one_embed).
  unfold eval. rewrite renderedWrappers_eq. apply list_elem_of_here.
Defined.

(** ** Round trip *)

Lemma matches_upcast_view viewElement :
  view_name viewElement = "div" →
  "raw-html-embed" ∈ view_classes viewElement →
  matches HtmlEmbedEditing.upcast_view viewElement = true.
Proof.
  intros Hn Hc. unfold matches; simpl.
  rewrite !bool_decide_eq_true_2; done.
Qed.





(** ** What a session never touches *)

Lemma exec_bind {A B} (m : Action A) (f : A → Action B) w :
  exec (m ≫= f) w = exec (f (eval m w)) (exec m w).
Proof. unfold exec, eval, mbind, Action_bind. by destruct (m w). Qed.

Lemma eval_bind {A B} (m : Action A) (f : A → Action B) w :
  eval (m ≫= f) w = eval (f (eval m w)) (exec m w).
Proof. unfold exec, eval, mbind, Action_bind. by destruct (m w). Qed.

Section Stable.
Context (P : World → Prop).

Lemma stable_ret {A} (x : A) : stable P (mret x).
Proof. by intros w. Qed.

Lemma stable_bind {A B} (m : Action A) (f : A → Action B) :
  stable P m → (∀ a, stable P (f a)) → stable P (m ≫= f).
Proof. intros Hm Hf w Hw. rewrite exec_bind. by apply Hf, Hm. Qed.

Lemma stable_gets {A} (f : World → A) : stable P (gets f).
Proof. by intros w. Qed.

Lemma stable_modify (f : World → World) :
  (∀ w, P w → P (f w)) → stable P (modify f).
Proof. intros Hf w Hw. by apply Hf. Qed.

Lemma stable_run_all (callbacks : list (Action unit)) :
  Forall (stable P) callbacks → stable P (run_all callbacks).
Proof.
  induction 1 as [|c rest Hc _ IH]; simpl.
  - apply stable_ret.
  - apply stable_bind; [done | by intros _].
Qed.
End Stable.

Create HintDb quiet discriminated.

Lemma untouched_console_log label content : stable untouched (console_log label content).
Proof. by apply stable_modify. Qed.

Lemma untouched_setAttribute e key value : stable untouched (_setAttribute e key value).
Proof. by apply stable_modify. Qed.

Lemma untouched_getAttribute e key : stable untouched (getAttribute e key).
Proof. apply stable_gets. Qed.

Lemma untouched_createElement elementName attrs :
  stable untouched (writer_createElement elementName attrs).
Proof. by intros w. Qed.

Lemma untouched_model_change {A} (callback : Action A) :
  stable untouched callback → stable untouched (model_change callback).
Proof. intros H. apply stable_bind; [by apply stable_modify | by intros _]. Qed.

Lemma untouched_setSelection e : stable untouched (writer_setSelection_on e).
Proof. by apply stable_modify. Qed.

Lemma untouched_mousedown_listener e :
  stable untouched (HtmlEmbedEditing.mousedown_listener e).
Proof.
  apply stable_bind; [apply stable_gets|]. intros sel. case_decide.
  - apply untouched_model_change, untouched_setSelection.
  - apply stable_ret.
Qed.

Lemma untouched_setRawHtmlValue e content :
  stable untouched (HtmlEmbedEditing.setRawHtmlValue e content).
Proof. apply untouched_setAttribute. Qed.

(** With an empty reference set the render listener's loop has nothing to
    walk. *)
Lemma untouched_render_listener : stable untouched HtmlEmbedEditing.render_listener.
Proof.
  intros w Hw. unfold HtmlEmbedEditing.render_listener. rewrite exec_bind.
  unfold eval, gets; simpl. by rewrite (proj1 Hw).
Qed.

Lemma untouched_fire_render : stable untouched fire_render.
Proof.
  apply stable_bind; [apply stable_gets|]. intros listeners.
  apply stable_run_all, Forall_fmap, Forall_forall. intros [[] p] _; simpl.
  apply untouched_render_listener.
Qed.

Lemma untouched_convert_upcast v : stable untouched (convert_upcast v).
Proof.
  apply stable_bind; [apply stable_gets|]. intros registered.
  destruct (_ && _).
  - apply stable_bind; [apply untouched_createElement | intros; apply stable_ret].
  - apply stable_ret.
Qed.

Lemma untouched_renderToDom_dataDowncast e :
  stable untouched (renderToDom (HtmlEmbedEditing.dataDowncast_view e)).
Proof. intros w Hw. unfold exec. by rewrite dataDowncast_render_eq. Qed.

#[local] Hint Resolve untouched_console_log untouched_setAttribute untouched_getAttribute
  untouched_createElement untouched_setSelection untouched_mousedown_listener
  untouched_setRawHtmlValue untouched_render_listener untouched_fire_render
  untouched_convert_upcast untouched_renderToDom_dataDowncast : quiet.

Lemma sourceEditorOn_quiet editor e value :
  Forall (λ f, ∀ update, stable untouched (f update))
         (updateListenersOf (sourceEditorOn editor e value)).
Proof.
  constructor; [|constructor].
  intros update. apply stable_bind; [apply untouched_console_log|].
  intros _. apply untouched_setRawHtmlValue.
Qed.

Lemma renderedWrappers_quiet editor e w :
  Forall wrapper_quiet (eval (renderedWrappers editor e) w).
Proof.
  unfold eval. rewrite renderedWrappers_eq. simpl.
  constructor; [|constructor]. split; simpl.
  - constructor; [|constructor]. simpl. apply untouched_mousedown_listener.
  - constructor; [|constructor]. apply sourceEditorOn_quiet.
Qed.

Lemma emit_update_quiet cm content :
  Forall (λ f, ∀ update, stable untouched (f update)) (updateListenersOf cm) →
  stable untouched (emit_update cm content).
Proof.
  intros H. apply stable_run_all, Forall_fmap.
  eapply Forall_impl; [exact H|]. intros f Hf; simpl. apply Hf.
Qed.

Lemma in_world_quiet m s :
  stable untouched m → session_quiet s → session_quiet (in_world m s).
Proof. intros Hm [Hw Hd]. split; simpl; [by apply Hm | done]. Qed.

Lemma convert_dataDowncast_cases e w :
  convert_dataDowncast e w = (Some (HtmlEmbedEditing.dataDowncast_view e), w) ∨
  convert_dataDowncast e w = (None, w).
Proof.
  unfold convert_dataDowncast, is_rawHtml, gets, mbind, Action_bind.
  destruct (_ && _); auto.
Qed.

Lemma convert_editingDowncast_cases editor e w :
  convert_editingDowncast editor e w =
    (Some (HtmlEmbedEditing.editingDowncast_view editor e), w) ∨
  convert_editingDowncast editor e w = (None, w).
Proof.
  unfold convert_editingDowncast, is_rawHtml, gets, mbind, Action_bind.
  destruct (_ && _); auto.
Qed.

Lemma step_quiet editor s ev : session_quiet s → session_quiet (step editor s ev).
Proof.
  intros Hs. destruct ev as [| attached | sel | v | e | e | i content | i]; simpl.
  - apply in_world_quiet; auto with quiet.
  - apply in_world_quiet; [|done]. by apply stable_modify.
  - apply in_world_quiet; [|done]. apply untouched_model_change. by apply stable_modify.
  - apply in_world_quiet; [|done].
    apply stable_bind; [|intros; apply stable_ret].
    apply untouched_model_change, untouched_convert_upcast.
  - apply in_world_quiet; [|done]. intros w Hw.
    unfold exec, mbind, Action_bind at 1.
    destruct (convert_dataDowncast_cases e w) as [-> | ->]; [|done].
    unfold mbind, Action_bind. by rewrite dataDowncast_render_eq.
  - destruct Hs as [Hw Hd]. unfold mbind, Action_bind at 1.
    destruct (convert_editingDowncast_cases editor e (world s)) as [-> | ->].
    + fold (renderedWrappers editor e).
      pose proof (renderedWrappers_quiet editor e (world s)) as Hq.
      unfold eval in Hq. rewrite renderedWrappers_eq in *. simpl in *.
      split; simpl; [done|]. by apply Forall_app.
    + split; simpl; [done|]. by rewrite app_nil_r.
  - destruct (wrappers s !! i) as [wrapper|] eqn:Hi; [|done].
    apply in_world_quiet; [|done].
    destruct Hs as [_ Hd]. rewrite Forall_lookup in Hd.
    destruct (Hd _ _ Hi) as [_ Hviews].
    apply stable_run_all, Forall_fmap.
    eapply Forall_impl; [exact Hviews|]. intros cm Hcm; simpl.
    by apply emit_update_quiet.
  - destruct (wrappers s !! i) as [wrapper|] eqn:Hi; [|done].
    apply in_world_quiet; [|done].
    destruct Hs as [_ Hd]. rewrite Forall_lookup in Hd.
    destruct (Hd _ _ Hi) as [Hlisteners _].
    apply stable_run_all, Forall_fmap.
    apply Forall_forall. intros l Hl. apply list_elem_of_filter in Hl as [_ Hl].
    rewrite Forall_forall in Hlisteners. by apply Hlisteners.
Qed.

Lemma run_quiet editor events s :
  session_quiet s → session_quiet (run editor events s).
Proof.
  revert s. induction events as [|ev events IH]; intros s Hs; simpl; [done|].
  by apply IH, step_quiet.
Qed.

Lemma load_quiet editor : session_quiet (load editor).2.
Proof. split; simpl; [by split_and! | constructor]. Qed.

(** C9: the reference set is empty when the plugin is constructed and stays
    empty whatever happens afterwards, and no button view is ever destroyed. *)
Theorem widget_button_references_stay_empty (editor : Editor) (events : list Event) :
  (∀ w, _widgetButtonViewReferences (exec (HtmlEmbedEditing.constructor editor) w) = []) ∧
  _widgetButtonViewReferences (world (load editor).2) = [] ∧
  _widgetButtonViewReferences (world (run (load editor).1 events (load editor).2)) = [] ∧
  destroyed (world (run (load editor).1 events (load editor).2)) = [].
Proof.
  destruct (run_quiet (load editor).1 events _ (load_quiet editor)) as [(Hr & Hd & _) _].
  by split_and!.
Qed.

(** ** Warnings *)

(** With previews enabled and no sanitize function, loading the plugin and
    rendering a widget twice logs nothing. *)
Lemma one_warning_per_initialization_fails :
  ¬ one_warning_per_initialization previewing_editor.
Proof.
  intros H.
  specialize (H eq_refl eq_refl [Upcast embed_view; EditingDowncast 1%positive; Render;
                                 EditingDowncast 1%positive; Render]).
  vm_compute in H. discriminate H.
Qed.

(** C4, amended: with previews enabled and no sanitize function configured,
    the constructor installs the default sanitize function, every call of it
    logs one warning, and neither loading the plugin nor anything that happens
    afterwards logs a warning. *)
Theorem no_warning_without_sanitize_call (editor : Editor) (events : list Event) :
  showPreviews (config_htmlEmbed editor) = Some true →
  sanitizeHtml (config_htmlEmbed editor) = None →
  sanitizeHtml (config_htmlEmbed (load editor).1) = Some HtmlEmbedEditing.default_sanitizeHtml ∧
  (∀ rawHtml w,
     warnings (exec (HtmlEmbedEditing.default_sanitizeHtml rawHtml) w) =
     warnings w ++ ["html-embed-provide-sanitize-function"]) ∧
  warnings (world (load editor).2) = [] ∧
  warnings (world (run (load editor).1 events (load editor).2)) = [].
Proof.
  intros _ Hnone.
  destruct (run_quiet (load editor).1 events _ (load_quiet editor)) as [(_ & _ & Hw) _].
  split_and!; [|done..]. simpl. by rewrite Hnone.
Qed.

Lemma no_warning_without_sanitize_call_witness :
  showPreviews (config_htmlEmbed previewing_editor) = Some true ∧
  sanitizeHtml (config_htmlEmbed previewing_editor) = None ∧
  warnings (world (run (load previewing_editor).1
                     [Upcast embed_view; EditingDowncast 1%positive; Render]
                     (load previewing_editor).2)) = [].
Proof.
  split; [reflexivity|]. split; [reflexivity|].
  apply (no_warning_without_sanitize_call previewing_editor
           [Upcast embed_view; EditingDowncast 1%positive; Render]); reflexivity.
Defined.

(** ** The render listener's sweep *)

(** The loop destroys and deletes the buttons it reaches and nothing else. *)
Lemma render_listener_loop_eq (iteration : list ButtonView) (w : World) :
  exec (HtmlEmbedEditing.render_listener_loop iteration) w =
  set_references (filter (λ b, b ∉ reached (connected w) iteration))
    (set_destroyed (λ l, l ++ reached (connected w) iteration) w).
Proof.
  revert w. induction iteration as [|b rest IH]; intros w.
  - destruct w; unfold exec, set_references, set_destroyed; simpl. f_equal.
    + symmetry. induction _widgetButtonViewReferences0 as [|x l IHl]; [done|].
      rewrite filter_cons_True by apply not_elem_of_nil. by f_equal.
    + by rewrite app_nil_r.
  - cbn [HtmlEmbedEditing.render_listener_loop reached].
    rewrite exec_bind. unfold eval at 1, exec at 2, element_isConnected, gets; simpl.
    destruct (match element b with Some d => bool_decide (d ∈ connected w) | None => false end).
    + destruct w; unfold exec, set_references, set_destroyed; simpl. f_equal.
      * symmetry. induction _widgetButtonViewReferences0 as [|x l IHl]; [done|].
        rewrite filter_cons_True by apply not_elem_of_nil. by f_equal.
      * by rewrite app_nil_r.
    + rewrite !exec_bind, IH. destruct w; unfold exec, set_references, set_destroyed; simpl.
      f_equal.
      * rewrite list_filter_filter. apply list_filter_iff. intros x.
        rewrite not_elem_of_cons. tauto.
      * by rewrite <- app_assoc.
Qed.

Lemma render_listener_eq (w : World) :
  exec HtmlEmbedEditing.render_listener w =
  set_references (filter (λ b, b ∉ reached (connected w) (_widgetButtonViewReferences w)))
    (set_destroyed (λ l, l ++ reached (connected w) (_widgetButtonViewReferences w)) w).
Proof. by rewrite <- render_listener_loop_eq. Qed.

Lemma filter_not_elem_of_subseteq {A} `{EqDecision A} (l k : list A) :
  l ⊆ k → filter (λ x, x ∉ k) l = [].
Proof.
  induction l as [|x l IH]; intros Hsub; [done|].
  rewrite filter_cons_False.
  - apply IH. intros y Hy. apply Hsub. by right.
  - intros Hx. apply Hx, Hsub. by left.
Qed.

(** At a reference set that holds an attached button in front of a detached
    one, firing ['render'] leaves the detached button in the set and does not
    destroy it: the listener returns at the first attached button. *)
Lemma render_listener_returns_at_first_attached :
  eval (element_isConnected detached_button) attached_then_detached = false ∧
  _widgetButtonViewReferences (exec fire_render attached_then_detached) =
    [attached_button; detached_button] ∧
  destroyed (exec fire_render attached_then_detached) = [].
Proof. by vm_compute. Qed.

(** The same two buttons in the other order are swept as documented. *)
Lemma render_listener_sweeps_leading_detached :
  _widgetButtonViewReferences (exec fire_render detached_then_attached) = [attached_button] ∧
  destroyed (exec fire_render detached_then_attached) = [detached_button].
Proof. by vm_compute. Qed.

(** When no button of the set is attached, every button is destroyed once and
    the set is emptied. *)
Lemma render_listener_all_detached (w : World) :
  Forall (λ b, eval (element_isConnected b) w = false) (_widgetButtonViewReferences w) →
  _widgetButtonViewReferences (exec HtmlEmbedEditing.render_listener w) = [] ∧
  destroyed (exec HtmlEmbedEditing.render_listener w) =
    destroyed w ++ _widgetButtonViewReferences w.
Proof.
  intros Hall. rewrite render_listener_eq.
  assert (Hreach : reached (connected w) (_widgetButtonViewReferences w) =
                   _widgetButtonViewReferences w).
  { induction Hall as [|b l Hb _ IH]; [done|]. simpl.
    unfold eval, element_isConnected, gets in Hb; simpl in Hb. rewrite Hb. by f_equal. }
  rewrite Hreach. simpl. split; [|done].
  apply filter_not_elem_of_subseteq. done.
Qed.

(** ** The editing view of the widget *)

(** With previews enabled the wrapper still holds the source editor. *)
Lemma preview_when_configured_fails :
  ¬ preview_when_configured (load previewing_editor).1 1%positive one_embed.
Proof.
  intros H.
  destruct (H (hd (createElement "div" [])
                 (eval (renderedWrappers (load previewing_editor).1 1%positive) one_embed)))
    as [markup Hm].
  - unfold eval. rewrite renderedWrappers_eq. apply list_elem_of_here.
  - unfold eval in Hm. rewrite renderedWrappers_eq in Hm. discriminate Hm.
Qed.

(** C3, amended: whatever the configuration, the editing downcast returns the
    widget made of the labeled [div.raw-html-embed] container with one raw
    child, the content wrapper, and rendering the wrapper fills it with the
    source editor. *)
Theorem editingDowncast_renders_source_editor (editor : Editor) (modelElement : ElementRef) :
  ∃ viewContentWrapper,
    HtmlEmbedEditing.editingDowncast_view editor modelElement =
      toWidget
        (mkContainerElement "div"
           [ ("class", AttrString "raw-html-embed");
             ("data-html-embed-label", AttrString (t editor "HTML snippet"));
             ("dir", AttrString (uiLanguageDirection editor)) ]
           [viewContentWrapper]
           [("rawHtml", true)])
        (t editor "HTML snippet") true ∧
    raw_name viewContentWrapper = "div" ∧
    ("class", AttrString "raw-html-embed__content-wrapper") ∈ raw_attributes viewContentWrapper ∧
    ("data-cke-ignore-events", AttrString "true") ∈ raw_attributes viewContentWrapper ∧
    ∀ w, ∃ wrapper cm,
      renderToDom viewContentWrapper w = (wrapper, w) ∧
      wrapperContent wrapper = Some (SourceEditor cm).
Proof.
  eexists. split; [reflexivity|]. split_and!.
  - reflexivity.
  - vm_compute. apply list_elem_of_further, list_elem_of_here.
  - vm_compute. do 2 apply list_elem_of_further. apply list_elem_of_here.
  - intros w. eexists _, _. split.
    + unfold renderToDom; simpl. apply contentWrapper_render_eq.
    + reflexivity.
Qed.

(** * Further properties of the plugin *)

(** ** More on the render listener *)

Lemma reached_not_connected attached iteration b :
  b ∈ reached attached iteration →
  match element b with Some d => bool_decide (d ∈ attached) | None => false end = false.
Proof.
  induction iteration as [|x l IH]; simpl; [by intros ?%not_elem_of_nil|].
  destruct (match element x with Some d => bool_decide (d ∈ attached) | None => false end)
    eqn:Hx; [by intros ?%not_elem_of_nil|].
  intros [->|Hin]%elem_of_cons; [done | by apply IH].
Qed.

(** The loop splits the set into what it reaches and a rest that is empty or
    starts with an attached button. *)
Lemma reached_split attached iteration :
  ∃ rest,
    iteration = reached attached iteration ++ rest ∧
    (rest = [] ∨
     ∃ a rest', rest = a :: rest' ∧
       match element a with Some d => bool_decide (d ∈ attached) | None => false end = true).
Proof.
  induction iteration as [|x l (rest & Hl & Hrest)]; simpl.
  - exists []. by split; [|left].
  - destruct (match element x with Some d => bool_decide (d ∈ attached) | None => false end)
      eqn:Hx.
    + exists (x :: l). split; [done|]. right. by exists x, l.
    + exists rest. split; [|done]. simpl. by f_equal.
Qed.

Lemma filter_not_elem_of_disjoint {A} `{EqDecision A} (l k : list A) :
  (∀ x, x ∈ l → x ∉ k) → filter (λ x, x ∉ k) l = l.
Proof.
  induction l as [|x l IH]; intros Hd; [done|].
  rewrite filter_cons_True by (apply Hd; left).
  f_equal. apply IH. intros y Hy. apply Hd. by right.
Qed.

Lemma element_isConnected_eval b w :
  eval (element_isConnected b) w =
  match element b with Some d => bool_decide (d ∈ connected w) | None => false end.
Proof. reflexivity. Qed.

(** A button whose element is attached survives the listener: it stays in the
    set and the listener does not destroy it. *)
Theorem render_listener_keeps_attached (w : World) (b : ButtonView) :
  b ∈ _widgetButtonViewReferences w →
  eval (element_isConnected b) w = true →
  b ∈ _widgetButtonViewReferences (exec HtmlEmbedEditing.render_listener w) ∧
  (b ∈ destroyed (exec HtmlEmbedEditing.render_listener w) → b ∈ destroyed w).
Proof.
  intros Hin Hb. rewrite element_isConnected_eval in Hb.
  assert (Hnot : b ∉ reached (connected w) (_widgetButtonViewReferences w)).
  { intros Hr%reached_not_connected. congruence. }
  rewrite render_listener_eq; simpl. split.
  - by apply list_elem_of_filter.
  - intros [?|?]%elem_of_app; done.
Qed.

Lemma render_listener_keeps_attached_witness :
  attached_button ∈ _widgetButtonViewReferences
                      (exec HtmlEmbedEditing.render_listener detached_then_attached).
Proof.
  apply (render_listener_keeps_attached detached_then_attached attached_button).
  - vm_compute. apply list_elem_of_further, list_elem_of_here.
  - by vm_compute.
Defined.

(** On a set without repetition the listener cuts the set at its first
    attached button: the buttons in front of it, none of them attached, are
    destroyed in order, once each, and the set that remains is the rest. *)
Theorem render_listener_cuts_at_first_attached (w : World) :
  NoDup (_widgetButtonViewReferences w) →
  ∃ swept rest,
    _widgetButtonViewReferences w = swept ++ rest ∧
    Forall (λ b, eval (element_isConnected b) w = false) swept ∧
    (∀ b, head rest = Some b → eval (element_isConnected b) w = true) ∧
    _widgetButtonViewReferences (exec HtmlEmbedEditing.render_listener w) = rest ∧
    destroyed (exec HtmlEmbedEditing.render_listener w) = destroyed w ++ swept.
Proof.
  intros Hnodup.
  destruct (reached_split (connected w) (_widgetButtonViewReferences w))
    as (rest & Hsplit & Hrest).
  exists (reached (connected w) (_widgetButtonViewReferences w)), rest.
  rewrite render_listener_eq; simpl. split_and!.
  - done.
  - apply Forall_forall. intros b Hb. rewrite element_isConnected_eval.
    by eapply reached_not_connected.
  - intros b Hb. rewrite element_isConnected_eval.
    destruct Hrest as [-> | (a & rest' & -> & Ha)]; [done|].
    simpl in Hb. by inversion Hb; subst.
  - remember (reached (connected w) (_widgetButtonViewReferences w)) as swept eqn:Hswept.
    rewrite Hsplit in Hnodup. apply NoDup_app in Hnodup as (_ & Hdisjoint & _).
    rewrite Hsplit, filter_app.
    rewrite filter_not_elem_of_subseteq by done. simpl.
    apply filter_not_elem_of_disjoint. intros x Hx Hs. by apply (Hdisjoint x).
  - done.
Qed.

Lemma render_listener_cuts_at_first_attached_witness :
  ∃ swept rest,
    _widgetButtonViewReferences detached_then_attached = swept ++ rest ∧
    Forall (λ b, eval (element_isConnected b) detached_then_attached = false) swept ∧
    (∀ b, head rest = Some b → eval (element_isConnected b) detached_then_attached = true) ∧
    _widgetButtonViewReferences
      (exec HtmlEmbedEditing.render_listener detached_then_attached) = rest ∧
    destroyed (exec HtmlEmbedEditing.render_listener detached_then_attached) =
      destroyed detached_then_attached ++ swept.
Proof.
  apply (render_listener_cuts_at_first_attached detached_then_attached).
  vm_compute. apply NoDup_cons. split.
  - intros [=]%list_elem_of_singleton.
  - apply NoDup_singleton.
Defined.

Lemma render_listener_all_detached_witness :
  _widgetButtonViewReferences (exec HtmlEmbedEditing.render_listener all_detached) = [] ∧
  destroyed (exec HtmlEmbedEditing.render_listener all_detached) =
    destroyed all_detached ++ _widgetButtonViewReferences all_detached.
Proof.
  apply (render_listener_all_detached all_detached).
  vm_compute. repeat constructor.
Defined.

Lemma set_references_destroyed_id f g w :
  f (_widgetButtonViewReferences w) = _widgetButtonViewReferences w →
  g (destroyed w) = destroyed w →
  set_references f (set_destroyed g w) = w.
Proof. intros Hf Hg. destruct w; simpl in *. unfold set_references; simpl. by rewrite Hf, Hg. Qed.

(** A second ['render'] on an unchanged document does nothing more: what the
    first run left in the set starts with an attached button or is empty. *)
Theorem render_listener_idempotent (w : World) :
  exec HtmlEmbedEditing.render_listener (exec HtmlEmbedEditing.render_listener w) =
  exec HtmlEmbedEditing.render_listener w.
Proof.
  rewrite (render_listener_eq (exec _ w)).
  assert (Hnone : reached (connected (exec HtmlEmbedEditing.render_listener w))
                    (_widgetButtonViewReferences (exec HtmlEmbedEditing.render_listener w)) = []).
  { rewrite render_listener_eq; simpl.
    destruct (reached_split (connected w) (_widgetButtonViewReferences w))
      as (rest & Hsplit & Hrest).
    remember (reached (connected w) (_widgetButtonViewReferences w)) as swept eqn:Hswept.
    rewrite Hsplit, filter_app.
    rewrite filter_not_elem_of_subseteq by done. simpl.
    destruct Hrest as [-> | (a & rest' & -> & Ha)]; [done|].
    rewrite filter_cons_True.
    - simpl. by rewrite Ha.
    - rewrite Hswept. intros Hr%reached_not_connected. congruence. }
  rewrite Hnone. apply set_references_destroyed_id.
  - apply filter_not_elem_of_disjoint. intros; apply not_elem_of_nil.
  - apply app_nil_r.
Qed.

(** ** Editing the source *)

Lemma setAttribute_elements e key value w :
  elements (exec (_setAttribute e key value) w) =
  alter (λ el, mkModelElement (name el) (<[key := Some value]> (attributes el))) e (elements w).
Proof. reflexivity. Qed.

(** What is typed is what is handed on: after an update of the source editor
    with content [c], the data downcast of the element assigns [c] to
    [innerHTML] and a newly rendered source editor is opened on [c], which it
    holds as lines. *)
Theorem edited_value_is_rendered
    (editor : Editor) (modelElement : ElementRef) (w0 w : World)
    (cm : CodeMirror.EditorView) (c : string) :
  is_Some (elements w !! modelElement) →
  cm ∈ sourceEditors editor modelElement w0 →
  let w' := exec (emit_update cm c) w in
  eval (renderToDom (HtmlEmbedEditing.dataDowncast_view modelElement)) w' =
    mkHTMLElement "div" [("class", AttrString "raw-html-embed")] [DomMarkup c] [] ∧
  sourceEditors editor modelElement w' = [sourceEditorOn editor modelElement c] ∧
  CodeMirror.doc <$> sourceEditors editor modelElement w' = [CodeMirror.lines_toString c].
Proof.
  intros Hel Hcm. rewrite sourceEditors_eq in Hcm.
  apply list_elem_of_singleton in Hcm; subst cm. cbv zeta.
  rewrite emit_update_sourceEditorOn.
  assert (Hval : eval (getAttribute modelElement "value")
                   (exec (_setAttribute modelElement "value" c)
                      (exec (console_log "update received" c) w)) = Some c).
  { by apply getAttribute_after_setAttribute. }
  split_and!.
  - unfold eval at 1. by rewrite dataDowncast_render_eq, Hval.
  - by rewrite sourceEditors_eq, Hval.
  - by rewrite sourceEditors_eq, Hval.
Qed.

Lemma edited_value_is_rendered_witness :
  CodeMirror.doc <$>
    sourceEditors previewing_editor 1%positive
      (exec (emit_update (sourceEditorOn previewing_editor 1%positive "<b>&amp;</b>") "")
         one_embed) = [""].
Proof.
  apply (edited_value_is_rendered previewing_editor 1%positive one_embed one_embed).
  - eexists. by vm_compute.
  - rewrite sourceEditors_eq.
    replace (default "" (eval (getAttribute 1%positive "value") one_embed))
      with "<b>&amp;</b>" by (by vm_compute).
    apply list_elem_of_here.
Defined.

(** An update of one widget's source editor changes that element's ['value']
    and nothing else of the model: other elements, the element's name and its
    other attributes, the selection and the change block count stay. *)
Theorem update_listener_touches_only_value
    (editor : Editor) (modelElement : ElementRef) (w0 w : World)
    (cm : CodeMirror.EditorView) (c : string) :
  cm ∈ sourceEditors editor modelElement w0 →
  let w' := exec (emit_update cm c) w in
  (∀ other, other ≠ modelElement → elements w' !! other = elements w !! other) ∧
  name <$> elements w' !! modelElement = name <$> elements w !! modelElement ∧
  (∀ key, key ≠ "value" →
     eval (getAttribute modelElement key) w' = eval (getAttribute modelElement key) w) ∧
  selection w' = selection w ∧
  changeBlocks w' = changeBlocks w ∧
  warnings w' = warnings w.
Proof.
  intros Hcm. rewrite sourceEditors_eq in Hcm.
  apply list_elem_of_singleton in Hcm; subst cm. cbv zeta.
  rewrite emit_update_sourceEditorOn. split_and!; try done.
  - intros other Hne. rewrite setAttribute_elements. by rewrite lookup_alter_ne.
  - rewrite setAttribute_elements, lookup_alter_eq. simpl.
    by destruct (elements w !! modelElement).
  - intros key Hne. unfold eval, getAttribute, gets; simpl.
    rewrite lookup_alter_eq.
    destruct (elements w !! modelElement) as [el|]; simpl; [|done].
    by rewrite lookup_insert_ne.
Qed.

Lemma update_listener_touches_only_value_witness :
  selection (exec (emit_update (sourceEditorOn previewing_editor 1%positive "<b>&amp;</b>")
                     "<i>new</i>") one_embed) = selection one_embed.
Proof.
  apply (update_listener_touches_only_value previewing_editor 1%positive one_embed one_embed).
  rewrite sourceEditors_eq.
  replace (default "" (eval (getAttribute 1%positive "value") one_embed))
    with "<b>&amp;</b>" by (by vm_compute).
  apply list_elem_of_here.
Defined.

(** ** The mousedown listener *)

Lemma mousedown_listener_exec modelElement w :
  exec (HtmlEmbedEditing.mousedown_listener modelElement) w =
  if decide (eval getSelectedElement w = Some modelElement) then w
  else set_selection (SelectionOn modelElement) (set_changeBlocks S w).
Proof.
  unfold HtmlEmbedEditing.mousedown_listener, eval, exec, getSelectedElement, gets.
  unfold mbind, Action_bind. simpl.
  repeat case_decide; done.
Qed.


(** ** Conversion edge cases *)

(** A view element that is not a [div] or lacks the class is not upcast by
    the plugin: no model element is created. *)
Theorem upcast_ignores_other_elements (viewElement : ViewElement) (w : World) :
  view_name viewElement ≠ "div" ∨ "raw-html-embed" ∉ view_classes viewElement →
  convert_upcast viewElement w = (None, w).
Proof.
  intros H. unfold convert_upcast, gets, mbind, Action_bind.
  assert (Hm : matches HtmlEmbedEditing.upcast_view viewElement = false).
  { unfold matches; simpl. apply andb_false_iff.
    destruct H; [left | right]; by apply bool_decide_eq_false_2. }
  rewrite Hm. by rewrite andb_false_r.
Qed.

Lemma upcast_ignores_other_elements_witness :
  convert_upcast paragraph_view (world (load previewing_editor).2) =
  (None, world (load previewing_editor).2).
Proof.
  apply (upcast_ignores_other_elements paragraph_view).
  left. discriminate.
Defined.

(** A [div.raw-html-embed] without captured raw content is upcast to a
    [rawHtml] element that has the ['value'] attribute, holding [undefined],
    and saving that element writes the empty string. *)
Theorem upcast_without_raw_content (viewElement : ViewElement) (w : World) :
  UpcastRawHtml ∈ converters w →
  DataDowncastRawHtml ∈ converters w →
  view_name viewElement = "div" →
  "raw-html-embed" ∈ view_classes viewElement →
  getCustomProperty viewElement "$rawContent" = None →
  ∃ modelElement w1 raw,
    convert_upcast viewElement w = (Some modelElement, w1) ∧
    eval (hasAttribute modelElement "value") w1 = true ∧
    eval (getAttribute modelElement "value") w1 = None ∧
    convert_dataDowncast modelElement w1 = (Some raw, w1) ∧
    renderToDom raw w1 =
      (mkHTMLElement "div" [("class", AttrString "raw-html-embed")] [DomMarkup ""] [], w1).
Proof.
  intros Hup Hdown Hname Hclass Hraw.
  set (r := fresh (dom (elements w))).
  set (w1 := set_elements (<[r := mkModelElement "rawHtml" {["value" := None]}]>) w).
  assert (Hlook : elements w1 !! r = Some (mkModelElement "rawHtml" {["value" := None]})).
  { subst w1; simpl. apply lookup_insert_eq. }
  assert (Hget : eval (getAttribute r "value") w1 = None).
  { unfold eval, getAttribute, gets; simpl.
    rewrite lookup_insert_eq. simpl. by rewrite lookup_singleton_eq. }
  exists r, w1, (HtmlEmbedEditing.dataDowncast_view r). split_and!.
  - unfold convert_upcast, gets, mbind, Action_bind.
    rewrite bool_decide_eq_true_2, matches_upcast_view by done. simpl.
    unfold HtmlEmbedEditing.upcast_model, writer_createElement; simpl.
    rewrite Hraw. reflexivity.
  - unfold eval, hasAttribute, gets; simpl.
    rewrite lookup_insert_eq. simpl. rewrite lookup_singleton_eq.
    by apply bool_decide_eq_true_2.
  - done.
  - unfold convert_dataDowncast, is_rawHtml, gets, mbind, Action_bind.
    rewrite Hlook. simpl.
    rewrite bool_decide_eq_true_2 by done. reflexivity.
  - by rewrite dataDowncast_render_eq, Hget.
Qed.

Lemma upcast_without_raw_content_witness :
  ∃ modelElement w1 raw,
    convert_upcast bare_view (world (load previewing_editor).2) = (Some modelElement, w1) ∧
    eval (hasAttribute modelElement "value") w1 = true ∧
    eval (getAttribute modelElement "value") w1 = None ∧
    convert_dataDowncast modelElement w1 = (Some raw, w1) ∧
    renderToDom raw w1 =
      (mkHTMLElement "div" [("class", AttrString "raw-html-embed")] [DomMarkup ""] [], w1).
Proof.
  apply (upcast_without_raw_content bare_view (world (load previewing_editor).2)).
  - vm_compute. apply list_elem_of_here.
  - vm_compute. apply list_elem_of_further, list_elem_of_here.
  - reflexivity.
  - apply list_elem_of_here.
  - by vm_compute.
Defined.

(** ** Rendering *)

(** Rendering reads the model and changes nothing: neither selecting the
    converters nor running the render functions of the data view and of the
    editing widget alters the host state. *)
Theorem rendering_changes_nothing (editor : Editor) (modelElement : ElementRef) (w : World) :
  exec (convert_dataDowncast modelElement) w = w ∧
  exec (convert_editingDowncast editor modelElement) w = w ∧
  exec (renderToDom (HtmlEmbedEditing.dataDowncast_view modelElement)) w = w ∧
  exec (renderedWrappers editor modelElement) w = w.
Proof.
  split_and!.
  - unfold exec. by destruct (convert_dataDowncast_cases modelElement w) as [-> | ->].
  - unfold exec. by destruct (convert_editingDowncast_cases editor modelElement w) as [-> | ->].
  - unfold exec. by rewrite dataDowncast_render_eq.
  - unfold exec. by rewrite renderedWrappers_eq.
Qed.

(** The content wrapper's render function replaces whatever the element held:
    afterwards the element has one child, which holds one source editor, given
    the current value and holding it as lines; its tag and attributes are
    kept, and one mousedown listener is added after the listeners it had. *)
Theorem contentWrapper_render_replaces_content
    (editor : Editor) (modelElement : ElementRef) (domElement : HTMLElement) (w : World) :
  let rendered := eval (HtmlEmbedEditing.contentWrapper_render editor modelElement domElement) w in
  tagName rendered = tagName domElement ∧
  domAttributes rendered = domAttributes domElement ∧
  length (childNodes rendered) = 1 ∧
  editorViewsOf rendered =
    [sourceEditorOn editor modelElement
       (default "" (eval (getAttribute modelElement "value") w))] ∧
  CodeMirror.doc <$> editorViewsOf rendered =
    [CodeMirror.lines_toString (default "" (eval (getAttribute modelElement "value") w))] ∧
  captureListeners rendered =
    captureListeners domElement ++
    [("mousedown", HtmlEmbedEditing.mousedown_listener modelElement)].
Proof. cbv zeta. unfold eval at 1 2 3 4 5 6. by rewrite contentWrapper_render_eq. Qed.

(** ** codemirror.ts *)

Lemma lines_toString_from_no_CR (afterCR : bool) (text : string) :
  mentions "013" (CodeMirror.lines_toString_from afterCR text) = false.
Proof.
  revert afterCR. induction text as [|c rest IH]; intros afterCR; [done|].
  cbn [CodeMirror.lines_toString_from].
  destruct (Ascii.eqb_spec c "013") as [->|Hc].
  - cbn [mentions]. by rewrite IH.
  - destruct (Ascii.eqb c "010" && afterCR); [apply IH|].
    cbn [mentions]. rewrite IH, orb_false_r.
    apply Ascii.eqb_neq. congruence.
Qed.

Lemma lines_toString_no_CR (text : string) :
  mentions "013" (CodeMirror.lines_toString text) = false.
Proof. apply lines_toString_from_no_CR. Qed.

(** [init] gives the editor the document, which the editor holds as lines (so
    unchanged when it holds no carriage return, and never holding one),
    appends the editor after the parent's children and wires the callback: an
    update with content [c] logs to the console and then calls
    [contentUpdate c], once. *)
Theorem init_forwards_updates
    (parent : HTMLElement) (doc : string) (contentUpdate : string → Action unit)
    (placeholderString : string) (c : string) (w : World) :
  let view := (CodeMirrorInit.init parent doc contentUpdate placeholderString).1 in
  let parent' := (CodeMirrorInit.init parent doc contentUpdate placeholderString).2 in
  CodeMirror.doc view = CodeMirror.lines_toString doc ∧
  (mentions "013" doc = false → CodeMirror.doc view = doc) ∧
  mentions "013" (CodeMirror.doc view) = false ∧
  childNodes parent' = childNodes parent ++ [DomEditorView view] ∧
  CodeMirror.placeholder placeholderString ∈ CodeMirror.extensions view ∧
  length (updateListenersOf view) = 1 ∧
  exec (emit_update view c) w =
    exec (contentUpdate c) (exec (console_log "update received" c) w).
Proof.
  cbv zeta. split_and!; try done.
  - intros Hcr. simpl. by apply lines_toString_without_CR.
  - apply lines_toString_no_CR.
  - vm_compute. do 19 apply list_elem_of_further. apply list_elem_of_here.
  - change (emit_update _ c)
      with ((console_log "update received" c;; contentUpdate c);; mret tt).
    by rewrite !exec_bind.
Qed.

(** ** The configuration *)

(** The constructor keeps what is configured and fills what is not:
    [showPreviews] defaults to [false] and [sanitizeHtml] to the default
    function; the rest of the editor is passed on. *)
Theorem constructor_defines_defaults (editor : Editor) (w : World) :
  let editor' := eval (HtmlEmbedEditing.constructor editor) w in
  showPreviews (config_htmlEmbed editor') =
    Some (default false (showPreviews (config_htmlEmbed editor))) ∧
  sanitizeHtml (config_htmlEmbed editor') =
    Some (default HtmlEmbedEditing.default_sanitizeHtml (sanitizeHtml (config_htmlEmbed editor))) ∧
  t editor' = t editor ∧
  uiLanguageDirection editor' = uiLanguageDirection editor.
Proof.
  cbv zeta; simpl. split_and!; try done.
  - by destruct (showPreviews (config_htmlEmbed editor)).
  - by destruct (sanitizeHtml (config_htmlEmbed editor)).
Qed.

(** ** The plural rule *)

(** On whole numbers the rule picks form 0 for one, form 1 for two to four
    and form 3 otherwise; form 2 is never picked and the index is always
    below [nplurals]. *)
Theorem plural_in_range (n : Z) :
  (0 ≤ plural n < nplurals)%Z ∧
  plural n ≠ 2%Z ∧
  (plural n = 0%Z ↔ n = 1%Z) ∧
  (plural n = 1%Z ↔ (2 ≤ n ≤ 4)%Z).
Proof.
  unfold plural, nplurals. rewrite Z.rem_1_r. simpl.
  destruct (Z.eqb_spec n 1) as [->|Hne]; simpl; [lia|].
  destruct (Z.leb_spec 2 n), (Z.leb_spec n 4); simpl; lia.
Qed.

(** ** Sessions *)

Lemma rendered_by_mousedown editor wrapper w :
  rendered_by editor wrapper →
  ∃ modelElement,
    exec (dispatchEvent_capture "mousedown" wrapper) w =
    exec (HtmlEmbedEditing.mousedown_listener modelElement) w.
Proof.
  intros (e & w0 & Hin). exists e.
  unfold eval in Hin. rewrite renderedWrappers_eq in Hin.
  apply list_elem_of_singleton in Hin; subst wrapper.
  change (dispatchEvent_capture "mousedown" _)
    with (HtmlEmbedEditing.mousedown_listener e;; mret tt).
  by rewrite exec_bind.
Qed.

Lemma rendered_by_update editor wrapper content w :
  rendered_by editor wrapper →
  ∃ modelElement,
    exec (run_all ((λ cm, emit_update cm content) <$> editorViewsOf wrapper)) w =
    exec (_setAttribute modelElement "value" content)
      (exec (console_log "update received" content) w).
Proof.
  intros (e & w0 & Hin). exists e.
  unfold eval in Hin. rewrite renderedWrappers_eq in Hin.
  apply list_elem_of_singleton in Hin; subst wrapper.
  reflexivity.
Qed.

Lemma step_rendered_by editor s ev :
  Forall (rendered_by editor) (wrappers s) →
  Forall (rendered_by editor) (wrappers (step editor s ev)).
Proof.
  intros Hs. destruct ev as [| attached | sel | v | e | e | i content | i]; simpl; try done.
  - unfold mbind, Action_bind at 1.
    destruct (convert_editingDowncast_cases editor e (world s)) as [-> | ->].
    + fold (renderedWrappers editor e).
      destruct (renderedWrappers editor e (world s)) as [rendered w'] eqn:Hr. simpl.
      apply Forall_app. split; [done|].
      apply Forall_forall. intros wrapper Hin. exists e, (world s).
      unfold eval. by rewrite Hr.
    + simpl. by rewrite app_nil_r.
  - by destruct (wrappers s !! i).
  - by destruct (wrappers s !! i).
Qed.

Lemma run_rendered_by editor events s :
  Forall (rendered_by editor) (wrappers s) →
  Forall (rendered_by editor) (wrappers (run editor events s)).
Proof.
  revert s. induction events as [|ev events IH]; intros s Hs; simpl; [done|].
  by apply IH, step_rendered_by.
Qed.

Lemma convert_upcast_cases v w :
  convert_upcast v w = (None, w) ∨
  ∃ r el, elements w !! r = None ∧
    convert_upcast v w = (Some r, set_elements (<[r := el]>) w).
Proof.
  unfold convert_upcast, gets, mbind, Action_bind.
  destruct (_ && _); [right | by left].
  eexists (fresh (dom (elements w))), _. split; [|reflexivity].
  apply not_elem_of_dom, is_fresh.
Qed.

Lemma step_world_upcast editor s v :
  world (step editor s (Upcast v)) =
  exec (convert_upcast v) (set_changeBlocks S (world s)).
Proof. cbn [step in_world world]. unfold model_change. by rewrite !exec_bind. Qed.

Lemma step_world_dataDowncast editor s e :
  world (step editor s (DataDowncast e)) = world s.
Proof.
  cbn [step in_world world]. rewrite exec_bind. unfold eval, exec at 2.
  destruct (convert_dataDowncast_cases e (world s)) as [-> | ->]; [|done].
  cbn [fst snd]. rewrite exec_bind. unfold exec at 2. by rewrite dataDowncast_render_eq.
Qed.

Lemma step_world_editingDowncast editor s e :
  world (step editor s (EditingDowncast e)) = world s.
Proof.
  cbn [step]. unfold mbind, Action_bind at 1.
  destruct (convert_editingDowncast_cases editor e (world s)) as [-> | ->]; [|done].
  fold (renderedWrappers editor e). by rewrite renderedWrappers_eq.
Qed.

Lemma fire_render_registrations w :
  registrations (exec fire_render w) = registrations w.
Proof.
  assert (H : stable (λ w', registrations w' = registrations w) fire_render).
  { apply stable_bind; [apply stable_gets|]. intros listeners.
    apply stable_run_all, Forall_fmap, Forall_forall. intros [[] p] _; simpl.
    intros w' Hw'. by rewrite render_listener_eq. }
  by apply H.
Qed.

Lemma step_registrations editor s ev :
  Forall (rendered_by editor) (wrappers s) →
  registrations (world (step editor s ev)) = registrations (world s).
Proof.
  intros Hr. destruct ev as [| attached | sel | v | e | e | i content | i]; try done.
  - cbn [step in_world world]. apply fire_render_registrations.
  - rewrite step_world_upcast. unfold exec.
    by destruct (convert_upcast_cases v (set_changeBlocks S (world s)))
      as [-> | (r & el & Hfresh & ->)].
  - by rewrite step_world_dataDowncast.
  - by rewrite step_world_editingDowncast.
  - cbn [step]. destruct (wrappers s !! i) as [wrapper|] eqn:Hi; [|done].
    cbn [in_world world]. rewrite Forall_lookup in Hr.
    by destruct (rendered_by_update _ _ content (world s) (Hr _ _ Hi)) as (e & ->).
  - cbn [step]. destruct (wrappers s !! i) as [wrapper|] eqn:Hi; [|done].
    cbn [in_world world]. rewrite Forall_lookup in Hr.
    destruct (rendered_by_mousedown _ _ (world s) (Hr _ _ Hi)) as (e & ->).
    rewrite mousedown_listener_exec. by case_decide.
Qed.

Lemma run_registrations editor events s :
  Forall (rendered_by editor) (wrappers s) →
  registrations (world (run editor events s)) = registrations (world s).
Proof.
  revert s. induction events as [|ev events IH]; intros s Hs; simpl; [done|].
  rewrite IH by by apply step_rendered_by. by apply step_registrations.
Qed.

(** The plugin registers with the host in [init] and never again: throughout
    a session there is the one [rawHtml] schema item, the one command, the one
    render listener at the lowest priority, the one raw content matcher and
    the three converters. *)
Theorem registrations_fixed_after_init (editor : Editor) (events : list Event) :
  registrations (world (run (load editor).1 events (load editor).2)) =
  ([("rawHtml", {| inheritAllFrom := "$blockObject"; allowAttributes := ["value"] |})],
   ["htmlEmbed"],
   [(SweepWidgetButtons, PriorityLowest)],
   [{| pattern_name := "div"; pattern_classes := "raw-html-embed" |}],
   [UpcastRawHtml; DataDowncastRawHtml; EditingDowncastRawHtml]).
Proof. by rewrite run_registrations by apply Forall_nil_2. Qed.

(** ** What the render listener guarantees *)



